(** * Sephora product recommender (api.py): catalog build, search, trending

    A shallow embedding of [api.py].  Python [str] values are Rocq strings
    over the code points below 256; Python floats are idealised as real
    numbers (no NaN, no rounding), a missing pandas cell (NaN) is [None];
    integer columns are [Z].  The scikit-learn vectorizer, the cosine
    similarity, TextBlob's polarity, the random review sample and the regular
    expression engine are library code: they are the variables of the
    sections below. *)

From Stdlib Require Import List String Ascii Bool Arith ZArith Lia.
From Stdlib Require Import Reals Lra.
From Stdlib Require Import Sorting.Sorted Sorting.Permutation.
From Stdlib Require Import Structures.OrderedTypeEx.
Import ListNotations.

Open Scope string_scope.

(* ================================================================== *)
(** * Text normalisation: [clean_text] *)

Module Text.

(** Python's [str.isspace] (and the [\s] class of [re] on [str] patterns)
    on the code points below 256: TAB..CR, FS..US, SPACE, NEL, NBSP. *)
Definition isspace (c : ascii) : bool :=
  let n := nat_of_ascii c in
  (((9 <=? n) && (n <=? 13)) || ((28 <=? n) && (n <=? 32))
   || (n =? 133) || (n =? 160))%nat.

Definition is_upper (c : ascii) : bool :=
  let n := nat_of_ascii c in ((65 <=? n) && (n <=? 90))%nat.

Definition is_lower (c : ascii) : bool :=
  let n := nat_of_ascii c in ((97 <=? n) && (n <=? 122))%nat.

Definition is_digit (c : ascii) : bool :=
  let n := nat_of_ascii c in ((48 <=? n) && (n <=? 57))%nat.

(** [str.lower] on one code point below 256: [A-Z] and the Latin-1
    capitals (except the multiplication sign) move up by 32. *)
Definition lower_char (c : ascii) : ascii :=
  let n := nat_of_ascii c in
  if is_upper c then ascii_of_nat (n + 32)
  else if ((192 <=? n) && (n <=? 222) && negb (n =? 215))%nat
       then ascii_of_nat (n + 32)
       else c.

Fixpoint map_chars (f : ascii -> ascii) (s : string) : string :=
  match s with
  | EmptyString => EmptyString
  | String c r => String (f c) (map_chars f r)
  end.

Definition lower (s : string) : string := map_chars lower_char s.

(** [re.sub(r'[^a-zA-Z0-9\s]', ' ', text)] *)
Definition keep_char (c : ascii) : bool :=
  is_lower c || is_upper c || is_digit c || isspace c.

Definition sub_special (s : string) : string :=
  map_chars (fun c => if keep_char c then c else " "%char) s.

(** [text.split()]: the maximal runs of non-whitespace characters.
    [word] is the run being read. *)
Fixpoint split_from (word s : string) : list string :=
  match s with
  | EmptyString =>
      match word with EmptyString => [] | _ => [word] end
  | String c r =>
      if isspace c then
        match word with
        | EmptyString => split_from EmptyString r
        | _ => word :: split_from EmptyString r
        end
      else split_from (word ++ String c EmptyString) r
  end.

Definition split (s : string) : list string := split_from "" s.

(** [' '.join(words)] is [String.concat " " words]. *)
Definition join (sep : string) (ws : list string) : string := concat sep ws.

(** [clean_text]: a missing cell and the empty string give [''];
    otherwise lowercase, blank out the special characters, and re-join the
    words with one space. *)
Definition clean_text (text : option string) : string :=
  match text with
  | None => ""
  | Some "" => ""
  | Some s => join " " (split (sub_special (lower s)))
  end.

(** ** Predicates on normalised text *)

Definition is_space32 (c : ascii) : bool := (c =? " ")%char.

Definition is_norm_char (c : ascii) : bool :=
  is_lower c || is_digit c || is_space32 c.

Fixpoint all_chars (p : ascii -> bool) (s : string) : bool :=
  match s with
  | EmptyString => true
  | String c r => p c && all_chars p r
  end.

Definition starts_with_space (s : string) : bool :=
  match s with
  | EmptyString => false
  | String c _ => is_space32 c
  end.

Fixpoint ends_with_space (s : string) : bool :=
  match s with
  | EmptyString => false
  | String c EmptyString => is_space32 c
  | String _ r => ends_with_space r
  end.

(** A run of two (or more) consecutive spaces somewhere in [s]. *)
Fixpoint has_double_space (s : string) : bool :=
  match s with
  | EmptyString => false
  | String c r => (is_space32 c && starts_with_space r) || has_double_space r
  end.

(** Single-spaced and trimmed. *)
Definition tidy (s : string) : bool :=
  negb (has_double_space s) && negb (starts_with_space s)
  && negb (ends_with_space s).

Definition is_word_char (c : ascii) : bool := is_lower c || is_digit c.

(** A word of a normalised text: not empty, lowercase letters and digits
    only. *)
Definition is_word (w : string) : Prop :=
  w <> "" /\ all_chars is_word_char w = true.

End Text.

(* ================================================================== *)
(** * Numbers, exceptions, sorting *)

Open Scope R_scope.

(** [np.log1p] on a non-negative argument. *)
Definition log1p (x : R) : R := ln (1 + x).

Definition Rsum (xs : list R) : R := fold_right Rplus 0 xs.

(** pandas [mean]: NaN on an empty group. *)
Definition mean (xs : list R) : option R :=
  match xs with
  | [] => None
  | _ => Some (Rsum xs / INR (List.length xs))
  end.

(** [s.fillna(d)] on one cell. *)
Definition fillna {A : Type} (cell : option A) (d : A) : A :=
  match cell with Some v => v | None => d end.

Inductive exn : Type :=
| ValueError      (* unpacking a price range that has not two elements *)
| ReError         (* the brand filter is not a regular expression *)
| AttributeError  (* [None.transform]: the vectorizer is not fitted *)
| TypeError       (* [None[...]]: the feature matrix is not built *)
| IndexError.     (* a row position outside the feature matrix *)

Inductive result (A : Type) : Type :=
| Ok (a : A)
| Raise (e : exn).
Arguments Ok {A} a.
Arguments Raise {A} e.

Definition bind {A B : Type} (m : result A) (k : A -> result B) : result B :=
  match m with
  | Ok a => k a
  | Raise e => Raise e
  end.

Notation "x <- m ;; k" := (bind m (fun x => k))
  (at level 61, m at next level, right associativity).

Fixpoint mapM {A B : Type} (f : A -> result B) (l : list A) : result (list B) :=
  match l with
  | [] => Ok []
  | a :: r => b <- f a ;; bs <- mapM f r ;; Ok (b :: bs)
  end.

(** [list.sort(key=..., reverse=True)] and the order of
    [DataFrame.nlargest(n, col)] (keep='first'): descending by key, rows with
    equal keys staying in their original order.  [x] comes before the part
    already sorted, so it is placed in front of the first element whose key
    is not larger. *)
Section SortDesc.
Context {A : Type} (key : A -> R).

Fixpoint insert_desc (x : A) (l : list A) : list A :=
  match l with
  | [] => [x]
  | y :: r => if Rle_dec (key y) (key x) then x :: y :: r
              else y :: insert_desc x r
  end.

Fixpoint sort_desc (l : list A) : list A :=
  match l with
  | [] => []
  | x :: r => insert_desc x (sort_desc r)
  end.
End SortDesc.

(** [l[:n]] for a Python int [n]: a negative [n] counts from the end. *)
Definition slice_to {A : Type} (n : Z) (l : list A) : list A :=
  if (0 <=? n)%Z then firstn (Z.to_nat n) l
  else firstn (Z.to_nat (Z.of_nat (List.length l) + n)) l.

(** The stop of a slice [l[:stop]]: a Python int, or [None], which keeps
    the whole list.  An int is read as a stop where one is expected. *)
Inductive stop : Type :=
| Int (n : Z)
| NoStop.
Coercion Int : Z >-> stop.
Bind Scope Z_scope with stop.

Definition slice_stop {A : Type} (n : stop) (l : list A) : list A :=
  match n with
  | Int k => slice_to k l
  | NoStop => l
  end.

(** Rows paired with their position ([DataFrame.index] is the RangeIndex
    left by [merge]). *)
Definition indexed {A : Type} (l : list A) : list (nat * A) :=
  combine (seq 0 (List.length l)) l.

(* ================================================================== *)
(** * Data model *)

(** One line of [product_info.csv], text cells as the tokens of the file,
    numeric cells already parsed ([None]: a missing number). *)
Record CsvProduct := {
  csv_product_id : string;
  csv_product_name : string;
  csv_brand_name : string;
  csv_primary_category : string;
  csv_secondary_category : string;
  csv_ingredients : string;
  csv_rating : option R;
  csv_reviews : option Z;
  csv_price_usd : option R
}.

(** The tokens [pd.read_csv] reads as NaN by default. *)
Definition na_values : list string :=
  [""; "#N/A"; "#N/A N/A"; "#NA"; "-1.#IND"; "-1.#QNAN"; "-NaN"; "-nan";
   "1.#IND"; "1.#QNAN"; "<NA>"; "N/A"; "NA"; "NULL"; "NaN"; "None"; "n/a";
   "nan"; "null"].

Definition is_na (cell : string) : bool :=
  existsb (String.eqb cell) na_values.

Definition read_cell (cell : string) : option string :=
  if is_na cell then None else Some cell.

(** One row of a [reviews_*.csv] file, as read. *)
Record Review := {
  review_product_id : option string;
  review_rating : option R;
  review_text : option string
}.

(** A row of [products_df] after [load_and_preprocess_data].
    ([rating_std] and [review_count] are computed by the source and never
    read again; they are left out.) *)
Record Product := {
  product_id : option string;
  product_name : string;
  brand_name : string;
  primary_category : string;
  secondary_category : string;
  ingredients : string;
  rating : R;
  reviews : Z;
  price_usd : R;
  product_name_clean : string;
  brand_name_clean : string;
  ingredients_clean : string;
  combined_features : string;
  avg_rating : option R;
  rating_count : option Z;
  final_rating : R;
  final_review_count : Z;
  avg_sentiment : R;
  sample_reviews : string
}.

(** The libraries the program calls. *)
Class Libraries := {
  Vectorizer : Type;
  Vec : Type;
  (** [TfidfVectorizer(...).fit(corpus)]; [None] when it raises. *)
  fit : list string -> option Vectorizer;
  (** [vectorizer.transform([text])], one row. *)
  transform : Vectorizer -> string -> Vec;
  (** [cosine_similarity(q, rows)], one entry. *)
  cosine_similarity : Vec -> Vec -> R;
  (** [TextBlob(text).sentiment.polarity], 0 when it raises. *)
  polarity : string -> R;
  (** [reviews_df.sample(min(10000, len(reviews_df)))] *)
  sample : list Review -> list Review;
  (** [re.compile(pat).search]; [None] when the pattern is rejected. *)
  re_search : string -> option (string -> bool)
}.

Record State `{Libraries} := {
  products_df : option (list Product);
  reviews_df : option (list Review);
  tfidf_vectorizer : option Vectorizer;
  product_features_matrix : option (list Vec)
}.

(** The module-level globals before [load_and_preprocess_data] ran. *)
Definition initial_state `{Libraries} : State :=
  {| products_df := None; reviews_df := None;
     tfidf_vectorizer := None; product_features_matrix := None |}.

Definition Rleb (x y : R) : bool := if Rle_dec x y then true else false.
Definition Rltb (x y : R) : bool := if Rlt_dec x y then true else false.

(* ================================================================== *)
(** * Build: [load_and_preprocess_data] *)

Section Build.
Context `{Libraries}.
Import Text.

(** The rows of one [groupby('product_id')] group; rows without a
    product id belong to no group. *)
Definition group_of (rs : list Review) (pid : string) : list Review :=
  filter (fun r => match review_product_id r with
                   | Some k => String.eqb k pid
                   | None => false
                   end) rs.

Definition ratings_of (g : list Review) : list R :=
  flat_map (fun r => match review_rating r with
                     | Some x => [x]
                     | None => []
                     end) g.

(** One row of [review_stats]: [mean] and [count] of the group's
    ratings. *)
Definition review_stats (rs : list Review) (pid : string)
  : option (option R * Z) :=
  match group_of rs pid with
  | [] => None
  | g => Some (mean (ratings_of g), Z.of_nat (List.length (ratings_of g)))
  end.

Definition get_sentiment (text : option string) : R :=
  match text with
  | None => 0
  | Some "" => 0
  | Some t => polarity t
  end.

(** [str(text)] on a review cell. *)
Definition py_str (text : option string) : string := fillna text "nan".

(** One row of [product_sentiment]: mean sentiment of the sampled
    reviews of the product and its first three review texts. *)
Definition product_sentiment (sampled : list Review) (pid : string)
  : option (option R * string) :=
  match group_of sampled pid with
  | [] => None
  | g => Some (mean (map (fun r => get_sentiment (review_text r)) g),
               join " " (map (fun r => py_str (review_text r)) (firstn 3 g)))
  end.

(** [merge(..., on='product_id', how='left')], one left row. *)
Definition merge_left {B : Type} (table : string -> option B)
           (pid : option string) : option B :=
  match pid with
  | Some k => table k
  | None => None
  end.

(** [dropna(subset=['product_name'])] *)
Definition has_name (c : CsvProduct) : bool :=
  negb (is_na (csv_product_name c)).

Definition build_product (reviews sampled : list Review) (c : CsvProduct)
  : Product :=
  let pid := read_cell (csv_product_id c) in
  let name := csv_product_name c in
  let brand := fillna (read_cell (csv_brand_name c)) "Unknown Brand" in
  let primary := fillna (read_cell (csv_primary_category c)) "Skincare" in
  let secondary := fillna (read_cell (csv_secondary_category c)) "" in
  let ingr := fillna (read_cell (csv_ingredients c)) "" in
  let rating0 := fillna (csv_rating c) 0 in
  let reviews0 := fillna (csv_reviews c) 0%Z in
  let price := fillna (csv_price_usd c) 0 in
  let name_clean := clean_text (Some name) in
  let brand_clean := clean_text (Some brand) in
  let ingr_clean := clean_text (Some ingr) in
  let combined :=
    name_clean ++ " " ++ brand_clean ++ " " ++ clean_text (Some primary)
    ++ " " ++ clean_text (Some secondary) ++ " " ++ ingr_clean in
  let stats := merge_left (review_stats reviews) pid in
  let avg := match stats with Some (m, _) => m | None => None end in
  let cnt := option_map snd stats in
  let senti := merge_left (product_sentiment sampled) pid in
  {| product_id := pid;
     product_name := name;
     brand_name := brand;
     primary_category := primary;
     secondary_category := secondary;
     ingredients := ingr;
     rating := rating0;
     reviews := reviews0;
     price_usd := price;
     product_name_clean := name_clean;
     brand_name_clean := brand_clean;
     ingredients_clean := ingr_clean;
     combined_features := combined;
     avg_rating := avg;
     rating_count := cnt;
     final_rating := fillna avg rating0;
     final_review_count := fillna cnt reviews0;
     avg_sentiment :=
       fillna (match senti with Some (m, _) => m | None => None end) 0;
     sample_reviews := fillna (option_map snd senti) "" |}.

(** [product_info]: the rows of [data/product_info.csv], [None] when the
    file does not exist; [review_files]: the rows of each
    [data/reviews_*.csv] in sorted file order.  The result is the globals
    after a successful load, [None] when the function returns [False]
    (the server is then not started). *)
Definition load_and_preprocess_data
           (product_info : option (list CsvProduct))
           (review_files : list (list Review)) : option State :=
  match product_info with
  | None => None
  | Some rows =>
      match review_files with
      | [] => None
      | _ =>
          let reviews := List.concat review_files in
          let products :=
            map (build_product reviews (sample reviews))
                (filter has_name rows) in
          let corpus := map combined_features products in
          match fit corpus with
          | None => None
          | Some vectorizer =>
              Some {| products_df := Some products;
                      reviews_df := Some reviews;
                      tfidf_vectorizer := Some vectorizer;
                      product_features_matrix :=
                        Some (map (transform vectorizer) corpus) |}
          end
      end
  end.
End Build.

(* ================================================================== *)
(** * Search: [get_product_recommendations] and [search_products] *)

(** One entry of the result list. *)
Record Recommendation := {
  r_product_id : option string;
  r_product_name : string;
  r_brand_name : string;
  r_category : string;
  r_subcategory : string;
  r_price_usd : option R;
  r_rating : R;
  r_review_count : Z;
  r_similarity_score : R;
  r_composite_score : R;
  r_sentiment_score : R;
  r_ingredients : string;
  r_sample_reviews : string
}.

(** [s[:n] + '...' if len(str(s)) > n else s] *)
Definition excerpt (n : nat) (s : string) : string :=
  if (n <? String.length s)%nat then substring 0 n s ++ "..." else s.

Section Search.
Context `{Libraries}.
Import Text.

Definition composite_score_of (p : Product) (base_similarity : R) : R :=
  let rating_bonus := (final_rating p / 5.0) * 0.2 in
  let review_bonus :=
    Rmin (log1p (IZR (final_review_count p)) / 10) 0.1 in
  let sentiment_bonus := Rmax (avg_sentiment p) 0 * 0.1 in
  base_similarity + rating_bonus + review_bonus + sentiment_bonus.

Definition make_result (p : Product) (base_similarity : R)
  : Recommendation :=
  {| r_product_id := product_id p;
     r_product_name := product_name p;
     r_brand_name := brand_name p;
     r_category := primary_category p;
     r_subcategory := secondary_category p;
     r_price_usd := if Rltb 0 (price_usd p) then Some (price_usd p)
                    else None;
     r_rating := final_rating p;
     r_review_count := final_review_count p;
     r_similarity_score := base_similarity;
     r_composite_score := composite_score_of p base_similarity;
     r_sentiment_score := avg_sentiment p;
     r_ingredients := excerpt 300 (ingredients p);
     r_sample_reviews := excerpt 200 (sample_reviews p) |}.

(** [if price_range: min_price, max_price = price_range; ...] *)
Definition apply_price_range (price_range : option (list R))
           (rows : list (nat * Product)) : result (list (nat * Product)) :=
  match price_range with
  | None => Ok rows
  | Some [] => Ok rows
  | Some [min_price; max_price] =>
      Ok (filter (fun ip => Rleb min_price (price_usd (snd ip))
                            && Rleb (price_usd (snd ip)) max_price) rows)
  | Some _ => Raise ValueError
  end.

(** [if brand_filter and brand_filter.lower() != 'all': ...
    .str.lower().str.contains(brand_filter.lower(), na=False)] *)
Definition apply_brand_filter (brand_filter : option string)
           (rows : list (nat * Product)) : result (list (nat * Product)) :=
  match brand_filter with
  | None => Ok rows
  | Some b =>
      if (b =? "")%string || (lower b =? "all")%string then Ok rows
      else match re_search (lower b) with
           | None => Raise ReError
           | Some found =>
               Ok (filter (fun ip => found (lower (brand_name (snd ip))))
                          rows)
           end
  end.

Definition enhanced_query (query : string) (skin_concerns : list string)
  : string :=
  let q := clean_text (Some query) in
  match skin_concerns with
  | [] => q
  | _ => q ++ " "
         ++ join " " (map (fun c => clean_text (Some c)) skin_concerns)
  end.

(** [cosine_similarity(query_vector, product_features_matrix[indices])] *)
Definition similarity_scores (query_vector : Vec) (matrix : list Vec)
           (rows : list (nat * Product))
  : result (list (nat * Product * R)) :=
  mapM (fun ip => match nth_error matrix (fst ip) with
                  | Some v => Ok (ip, cosine_similarity query_vector v)
                  | None => Raise IndexError
                  end) rows.

(** The loop over [filtered_indices]: one record per row whose
    similarity is positive, in the order of the rows. *)
Definition results_of (scored : list (nat * Product * R))
  : list Recommendation :=
  map (fun ips => make_result (snd (fst ips)) (snd ips))
      (filter (fun ips => Rltb 0 (snd ips)) scored).

Definition get_product_recommendations (st : State) (query : string)
           (skin_concerns : list string) (price_range : option (list R))
           (brand_filter : option string) (top_n : stop)
  : result (list Recommendation) :=
  match products_df st with
  | None => Ok []
  | Some products =>
      by_price <- apply_price_range price_range (indexed products) ;;
      filtered_products <- apply_brand_filter brand_filter by_price ;;
      match filtered_products with
      | [] => Ok []
      | _ =>
          match tfidf_vectorizer st with
          | None => Raise AttributeError
          | Some vectorizer =>
              let query_vector :=
                transform vectorizer (enhanced_query query skin_concerns) in
              match product_features_matrix st with
              | None => Raise TypeError
              | Some matrix =>
                  scored <- similarity_scores query_vector matrix
                                              filtered_products ;;
                  Ok (slice_stop top_n
                        (sort_desc r_composite_score (results_of scored)))
              end
          end
      end
  end.

(** The JSON body of [POST /api/search]; an absent key is [None]; the
    limit is an int or null ([Some NoStop]). *)
Record SearchRequest := {
  req_query : option string;
  req_skin_concerns : option (list string);
  req_price_range : option (list R);
  req_brand : option string;
  req_limit : option stop
}.

Inductive Response : Type :=
| Ok200 (query : string) (total_results : nat)
        (products : list Recommendation)
| BadRequest400 (error : string)
| ServerError500 (e : exn).

(** The handler reads the globals and leaves them as they are. *)
Definition search_products (req : SearchRequest) (st : State)
  : Response * State :=
  let query := fillna (req_query req) "" in
  let skin_concerns := fillna (req_skin_concerns req) [] in
  let limit := fillna (req_limit req) 12%Z in
  if (query =? "")%string then (BadRequest400 "Query is required", st)
  else
    match get_product_recommendations st query skin_concerns
            (req_price_range req) (req_brand req) limit with
    | Ok recommendations =>
        (Ok200 query (List.length recommendations) recommendations, st)
    | Raise e => (ServerError500 e, st)
    end.

(* ---------------------------------------------------------------- *)
(** * Trending: [get_trending] *)

Record TrendingRow := {
  t_product_id : option string;
  t_product_name : string;
  t_brand_name : string;
  t_final_rating : R;
  t_final_review_count : Z;
  t_price_usd : R;
  t_trending_score : R
}.

Definition trending_eligible (p : Product) : bool :=
  Rleb 4.0 (final_rating p) && (50 <=? final_review_count p)%Z.

Definition trending_score (p : Product) : R :=
  final_rating p * 0.4
  + log1p (IZR (final_review_count p)) * 0.4
  + (avg_sentiment p + 1) * 2.5 * 0.2.

Definition trending_row (p : Product) : TrendingRow :=
  {| t_product_id := product_id p;
     t_product_name := product_name p;
     t_brand_name := brand_name p;
     t_final_rating := final_rating p;
     t_final_review_count := final_review_count p;
     t_price_usd := price_usd p;
     t_trending_score := trending_score p |}.

(** [df.nlargest(n, col)]: the first [n] rows in descending order of the
    column, the first occurrences winning ties. *)
Definition nlargest {A : Type} (n : nat) (col : A -> R) (rows : list A)
  : list A :=
  firstn n (sort_desc col rows).

(** [None]: the 500 answer 'Data not loaded'. *)
Definition get_trending (st : State) : option (list TrendingRow) :=
  match products_df st with
  | None => None
  | Some products =>
      Some (map trending_row
                (nlargest 20 trending_score
                          (filter trending_eligible products)))
  end.
End Search.

(* ================================================================== *)
(** * A small catalog and a toy index, for concrete runs *)

Module Example.
Import Text.

(** A vector is the list of the words of the text; two texts are similar
    (1) when they share a word, else not at all (0). *)
Definition shares_word (q d : list string) : bool :=
  existsb (fun w => existsb (String.eqb w) d) q.

Definition contains (pat s : string) : bool :=
  match index 0 pat s with Some _ => true | None => false end.

#[export] Instance toy : Libraries := {|
  Vectorizer := unit;
  Vec := list string;
  fit := fun _ => Some tt;
  transform := fun _ text => split text;
  cosine_similarity := fun q d => if shares_word q d then 1 else 0;
  polarity := fun _ => 0;
  sample := fun rs => rs;
  re_search := fun pat => Some (contains pat)
|}.

Definition serum : CsvProduct :=
  {| csv_product_id := "P1"; csv_product_name := "Hydrating Serum";
     csv_brand_name := "A"; csv_primary_category := "Skincare";
     csv_secondary_category := ""; csv_ingredients := "Water, Glycerin";
     csv_rating := Some 5; csv_reviews := Some 0%Z;
     csv_price_usd := Some 30 |}.

Definition nameless : CsvProduct :=
  {| csv_product_id := "P2"; csv_product_name := "";
     csv_brand_name := "B"; csv_primary_category := "Skincare";
     csv_secondary_category := "Masks"; csv_ingredients := "";
     csv_rating := Some 3; csv_reviews := Some 7%Z;
     csv_price_usd := Some 9 |}.

Definition gel : CsvProduct :=
  {| csv_product_id := "P3"; csv_product_name := "Mattifying Gel";
     csv_brand_name := "B"; csv_primary_category := "Skincare";
     csv_secondary_category := "Moisturizers"; csv_ingredients := "";
     csv_rating := Some 3; csv_reviews := Some 0%Z;
     csv_price_usd := Some 15 |}.

Definition cream : CsvProduct :=
  {| csv_product_id := "P4"; csv_product_name := "Hydrating Cream";
     csv_brand_name := "A"; csv_primary_category := "Skincare";
     csv_secondary_category := "Moisturizers";
     csv_ingredients := "Water";
     csv_rating := Some 4; csv_reviews := Some 0%Z;
     csv_price_usd := Some 40 |}.

Definition product_info : list CsvProduct := [serum; nameless; gel; cream].

(** One review file, one review, of a product that is not in the
    catalog. *)
Definition review_files : list (list Review) :=
  [[ {| review_product_id := Some "P9"; review_rating := Some 4;
        review_text := Some "nice" |} ]].

Definition reviews : list Review := List.concat review_files.

Definition catalog : list Product :=
  map (build_product reviews (sample reviews))
      (filter has_name product_info).

Definition loaded : State :=
  {| products_df := Some catalog;
     reviews_df := Some reviews;
     tfidf_vectorizer := Some tt;
     product_features_matrix :=
       Some (map (transform tt) (map combined_features catalog)) |}.

(** The first row of the catalog. *)
Definition serum_row : Product := build_product reviews (sample reviews) serum.

(** The last row of the catalog. *)
Definition cream_row : Product := build_product reviews (sample reviews) cream.

(** A second catalog, for the trending list: two products with the same
    rating, review count and sentiment around one that is rated too low. *)
Definition lip (id name ingr : string) (stars : R) (count : Z)
  : CsvProduct :=
  {| csv_product_id := id; csv_product_name := name;
     csv_brand_name := "C"; csv_primary_category := "Makeup";
     csv_secondary_category := "Lip"; csv_ingredients := ingr;
     csv_rating := Some stars; csv_reviews := Some count;
     csv_price_usd := Some 12 |}.

Definition lip_balm : CsvProduct := lip "L1" "Lip Balm" "Beeswax" 5 100.
Definition lip_oil : CsvProduct := lip "L3" "Lip Oil" "Jojoba Oil" 5 100.

Definition lip_info : list CsvProduct :=
  [lip_balm; lip "L2" "Lip Mask" "Beeswax" 3 500; lip_oil].

Definition lip_catalog : list Product :=
  map (build_product reviews (sample reviews)) lip_info.

Definition lip_loaded : State :=
  {| products_df := Some lip_catalog;
     reviews_df := Some reviews;
     tfidf_vectorizer := Some tt;
     product_features_matrix :=
       Some (map (transform tt) (map combined_features lip_catalog)) |}.

(** A search request whose price range has its bounds the wrong way
    round. *)
Definition inverted_range : SearchRequest :=
  {| req_query := Some "hydrating"; req_skin_concerns := None;
     req_price_range := Some [50; 10]; req_brand := None;
     req_limit := None |}.
End Example.

(* ================================================================== *)
(** * Vocabulary of the ranking statements *)

(** [a] is ranked ahead of [b]: a strictly larger key, or the same key and
    [a] was earlier in the input ([before a b]). *)
Definition ranks_before {A : Type} (key : A -> R) (before : A -> A -> Prop)
           (a b : A) : Prop :=
  key b < key a \/ (key a = key b /\ before a b).

(** Catalog order on rows paired with their position. *)
Definition earlier {A : Type} (a b : nat * A) : Prop := (fst a < fst b)%nat.

(** [(i, p, s)] is a scored candidate of the search for [query] and
    [skin_concerns]: row [i] of the catalog is [p], and [s] is the cosine
    similarity of the vector of the augmented query with row [i] of the
    feature matrix. *)
Definition candidate `{Libraries} (st : State) (query : string)
           (skin_concerns : list string) (c : nat * Product * R) : Prop :=
  (exists products,
      products_df st = Some products
      /\ nth_error products (fst (fst c)) = Some (snd (fst c)))
  /\ exists vectorizer matrix v,
      tfidf_vectorizer st = Some vectorizer
      /\ product_features_matrix st = Some matrix
      /\ nth_error matrix (fst (fst c)) = Some v
      /\ snd c = cosine_similarity
                   (transform vectorizer (enhanced_query query skin_concerns))
                   v.

(** The record the search builds for a scored candidate. *)
Definition record_of `{Libraries} (c : nat * Product * R) : Recommendation :=
  make_result (snd (fst c)) (snd c).

(** The composite score of a scored candidate. *)
Definition composite_of `{Libraries} (c : nat * Product * R) : R :=
  composite_score_of (snd (fst c)) (snd c).

(** Catalog order on scored candidates. *)
Definition earlier_row (a b : nat * Product * R) : Prop :=
  earlier (fst a) (fst b).

(** The ratings and review counts of the input files are not negative. *)
Definition nonnegative_inputs (rows : list CsvProduct)
           (reviews : list Review) : Prop :=
  (forall c x, In c rows -> csv_rating c = Some x -> 0 <= x)
  /\ (forall c n, In c rows -> csv_reviews c = Some n -> (0 <= n)%Z)
  /\ (forall rv x, In rv reviews -> review_rating rv = Some x -> 0 <= x).

(* ================================================================== *)
(** * Reviews of a product: [get_product_reviews], [get_reviews_endpoint] *)

(** A row of [reviews_df] with all its columns: the three the build reads
    and, by name, the others ([skin_tone], [eye_color], ...); a cell is
    [None] when it is missing. *)
Record ReviewRow := {
  row_review : Review;
  row_columns : list (string * option string)
}.

(** [review.get(key, default)] on the columns other than the three:
    the cell when the column exists, the default otherwise. *)
Fixpoint row_get (key : string) (columns : list (string * option string))
         (default : string) : option string :=
  match columns with
  | [] => Some default
  | (k, cell) :: r => if (k =? key)%string then cell else row_get key r default
  end.

(** [int(x)] on a float: towards zero. *)
Definition py_int (x : R) : Z :=
  if Rle_dec 0 x then Zfloor x else Zceil x.

(** One entry of the review list. *)
Record ReviewRecord := {
  rr_rating : Z;
  rr_review_text : string;
  rr_skin_tone : string;
  rr_eye_color : string;
  rr_skin_type : string;
  rr_hair_color : string;
  rr_age : string
}.

(** [reviews_df[reviews_df['product_id'] == product_id].head(limit)] *)
Definition product_reviews (rows : list ReviewRow) (product_id : string)
           (limit : Z) : list ReviewRow :=
  slice_to limit
    (filter (fun row => match review_product_id (row_review row) with
                        | Some k => (k =? product_id)%string
                        | None => false
                        end) rows).

(** The body of the loop over the rows; [int] of a missing rating
    raises. *)
Definition review_record (row : ReviewRow) : result ReviewRecord :=
  match review_rating (row_review row) with
  | None => Raise ValueError
  | Some x =>
      let text cell := fillna cell "nan" in
      let column key := text (row_get key (row_columns row) "Not specified") in
      Ok {| rr_rating := py_int x;
            rr_review_text :=
              substring 0 500 (text (review_text (row_review row)));
            rr_skin_tone := column "skin_tone";
            rr_eye_color := column "eye_color";
            rr_skin_type := column "skin_type";
            rr_hair_color := column "hair_color";
            rr_age := column "age" |}
  end.

(** [reviews_df] is the global with all the columns of the review
    files. *)
Definition get_product_reviews (reviews_df : option (list ReviewRow))
           (product_id : string) (limit : Z) : result (list ReviewRecord) :=
  match reviews_df with
  | None => Ok []
  | Some rows => mapM review_record (product_reviews rows product_id limit)
  end.

Inductive ReviewsResponse : Type :=
| Reviews200 (product_id : string) (total_reviews : nat)
             (reviews : list ReviewRecord)
| Reviews500 (e : exn).

(** [limit]: the [limit] argument of the URL read as an int, [None] when
    it is absent or not an int (the default 5 is used). *)
Definition get_reviews_endpoint (reviews_df : option (list ReviewRow))
           (product_id : string) (limit : option Z) : ReviewsResponse :=
  match get_product_reviews reviews_df product_id (fillna limit 5%Z) with
  | Ok reviews => Reviews200 product_id (List.length reviews) reviews
  | Raise e => Reviews500 e
  end.

(* ================================================================== *)
(** * Categories: [get_categories] *)

(** [Series.unique()]: the values in order of first appearance. *)
Fixpoint unique_from (seen l : list string) : list string :=
  match l with
  | [] => []
  | x :: r => if existsb (String.eqb x) seen then unique_from seen r
              else x :: unique_from (x :: seen) r
  end.

Definition unique (l : list string) : list string := unique_from [] l.

(** [sorted(l)] on strings: ascending by code points. *)
Fixpoint insert_sorted (x : string) (l : list string) : list string :=
  match l with
  | [] => [x]
  | y :: r => if String.leb x y then x :: y :: r else y :: insert_sorted x r
  end.

Definition sorted (l : list string) : list string :=
  fold_right insert_sorted [] l.

(** [None]: the 500 answer 'Data not loaded'; otherwise the primary and
    the secondary categories. *)
Definition get_categories `{Libraries} (st : State)
  : option (list string * list string) :=
  match products_df st with
  | None => None
  | Some products =>
      let primary_categories := unique (map primary_category products) in
      let secondary_categories := unique (map secondary_category products) in
      Some (sorted primary_categories,
            sorted (filter (fun cat => negb (cat =? "")%string)
                           secondary_categories))
  end.

(* ================================================================== *)
(** * Vocabulary of the further statements *)

(** The price of [p] is inside the price range of the request. *)
Definition in_price_range (price_range : option (list R)) (p : Product)
  : Prop :=
  match price_range with
  | Some [min_price; max_price] =>
      min_price <= price_usd p <= max_price
  | _ => True
  end.

(** The brand of [p] passes the brand filter of the request. *)
Definition brand_matches `{Libraries} (brand_filter : option string)
           (p : Product) : Prop :=
  match brand_filter with
  | None => True
  | Some b =>
      b = "" \/ Text.lower b = "all"
      \/ exists found, re_search (Text.lower b) = Some found
                       /\ found (Text.lower (brand_name p)) = true
  end.

(** The price range unpacks (it is absent, empty, or has two bounds) and
    the brand filter is absent or compiles. *)
Definition filters_well_formed `{Libraries} (price_range : option (list R))
           (brand_filter : option string) : Prop :=
  (forall bounds, price_range = Some bounds ->
                  List.length bounds = 0%nat \/ List.length bounds = 2%nat)
  /\ apply_brand_filter brand_filter [] = Ok [].

(** The ratings of the input files are on the scale from 0 to 5 and the
    listed review counts are not negative. *)
Definition ratings_on_scale (rows : list CsvProduct)
           (reviews : list Review) : Prop :=
  (forall c x, In c rows -> csv_rating c = Some x -> 0 <= x <= 5)
  /\ (forall c n, In c rows -> csv_reviews c = Some n -> (0 <= n)%Z)
  /\ (forall rv x, In rv reviews -> review_rating rv = Some x -> 0 <= x <= 5).

(** More concrete inputs on the example catalog. *)
Module MoreExamples.
(** The catalog without its index. *)
Definition catalog_only : State (H := Example.toy) :=
  {| products_df := Some Example.catalog; reviews_df := None;
     tfidf_vectorizer := None; product_features_matrix := None |}.

Definition serum_request : SearchRequest :=
  {| req_query := Some "serum"; req_skin_concerns := None;
     req_price_range := None; req_brand := None; req_limit := None |}.
End MoreExamples.

(** Reviews with all their columns, for the review list. *)
Module ExampleReviews.
Definition row (pid : string) (stars : option R) (text : option string)
           (tone : option string) : ReviewRow :=
  {| row_review := {| review_product_id := Some pid;
                      review_rating := stars;
                      review_text := text |};
     row_columns := [("skin_tone", tone); ("skin_type", Some "dry")] |}.

Definition rows : list ReviewRow :=
  [row "P1" (Some 5) (Some "love it") (Some "fair");
   row "P3" (Some 2) (Some "too dry") None;
   row "P1" (Some 4) None None;
   row "P4" None (Some "no stars given") (Some "deep");
   row "P1" (Some 3) (Some "fine") (Some "light")].

(** The first two reviews of the serum, as the review list gives them. *)
Definition first_two : list ReviewRecord :=
  match get_product_reviews (Some rows) "P1" 2 with
  | Ok reviews => reviews
  | Raise _ => []
  end.
End ExampleReviews.

(* ================================================================== *)
(** * Facts about the text layer *)

Module TextFacts.
Import Text.

Ltac by_cases_on c :=
  destruct c as [[] [] [] [] [] [] [] []]; reflexivity.

Lemma normalised_char (c : ascii) :
  let c' := if keep_char (lower_char c) then lower_char c else " "%char in
  isspace c' || is_word_char c' = true.
Proof. by_cases_on c. Qed.

Lemma word_char_not_space (c : ascii) :
  is_word_char c = true -> is_space32 c = false.
Proof. destruct c as [[] [] [] [] [] [] [] []]; vm_compute; congruence. Qed.

Lemma word_char_norm (c : ascii) :
  is_word_char c = true -> is_norm_char c = true.
Proof.
  unfold is_word_char, is_norm_char. intros ->. reflexivity.
Qed.

Lemma all_chars_app p a b :
  all_chars p (a ++ b) = all_chars p a && all_chars p b.
Proof.
  induction a as [|c a IH]; simpl; [reflexivity|].
  now rewrite IH, andb_assoc.
Qed.

Lemma all_chars_map p f s :
  all_chars p (map_chars f s) = all_chars (fun c => p (f c)) s.
Proof. induction s as [|c s IH]; simpl; [reflexivity | now rewrite IH]. Qed.

Lemma all_chars_true p s : (forall c, p c = true) -> all_chars p s = true.
Proof.
  intros Hp. induction s as [|c s IH]; simpl; [reflexivity|].
  now rewrite Hp, IH.
Qed.

Lemma all_chars_impl (p q : ascii -> bool) s :
  (forall c, p c = true -> q c = true) ->
  all_chars p s = true -> all_chars q s = true.
Proof.
  intros Hpq. induction s as [|c s IH]; simpl; [reflexivity|].
  intros [Hc Hs]%andb_prop. now rewrite (Hpq _ Hc), IH.
Qed.

Lemma append_empty_r (s : string) : s ++ "" = s.
Proof. induction s as [|c s IH]; simpl; [reflexivity | now rewrite IH]. Qed.

Lemma append_assoc (a b c : string) : (a ++ b) ++ c = a ++ (b ++ c).
Proof. induction a as [|x a IH]; simpl; [reflexivity | now rewrite IH]. Qed.

Lemma append_nonempty_l (a b : string) : a <> "" -> a ++ b <> "".
Proof. destruct a; simpl; [congruence | discriminate]. Qed.

Lemma append_nonempty_r (a b : string) : b <> "" -> a ++ b <> "".
Proof. destruct a; simpl; [auto | discriminate]. Qed.

Lemma starts_app a b :
  starts_with_space (a ++ b) =
  match a with "" => starts_with_space b | _ => starts_with_space a end.
Proof. destruct a; reflexivity. Qed.

Lemma ends_app a b :
  ends_with_space (a ++ b) =
  match b with "" => ends_with_space a | _ => ends_with_space b end.
Proof.
  induction a as [|c a IH]; simpl.
  - destruct b; reflexivity.
  - destruct b as [|d b].
    + now rewrite append_empty_r.
    + rewrite IH. destruct a; reflexivity.
Qed.

Lemma double_space_app a b :
  has_double_space (a ++ b) =
  has_double_space a || has_double_space b
  || (ends_with_space a && starts_with_space b).
Proof.
  induction a as [|c a IH]; simpl.
  - now rewrite orb_false_r.
  - rewrite IH, starts_app. destruct a as [|d a]; simpl.
    + destruct (is_space32 c), (has_double_space b), (starts_with_space b);
        reflexivity.
    + destruct (is_space32 c), (is_space32 d), (has_double_space (String d a)),
        (has_double_space b), (ends_with_space (String d a)),
        (starts_with_space b); reflexivity.
Qed.

(** ** Words *)

Lemma word_norm w : is_word w -> all_chars is_norm_char w = true.
Proof. intros [_ H]. revert H. apply all_chars_impl, word_char_norm. Qed.

Lemma word_no_space w :
  all_chars is_word_char w = true ->
  all_chars (fun c => negb (is_space32 c)) w = true.
Proof.
  apply all_chars_impl. intros c Hc. now rewrite word_char_not_space.
Qed.

Lemma no_space_tidy w :
  all_chars (fun c => negb (is_space32 c)) w = true -> tidy w = true.
Proof.
  unfold tidy. induction w as [|c w IH]; [reflexivity|].
  cbn [all_chars has_double_space starts_with_space].
  intros [Hc Hw]%andb_prop. apply negb_true_iff in Hc.
  specialize (IH Hw).
  apply andb_prop in IH as [[H1 H2]%andb_prop H3].
  rewrite Hc. cbn [andb orb negb]. rewrite H1. cbn [andb].
  destruct w; cbn [ends_with_space]; [now rewrite Hc | exact H3].
Qed.

Lemma word_tidy w : is_word w -> tidy w = true.
Proof. intros [_ H]. now apply no_space_tidy, word_no_space. Qed.

(** Two tidy, non-empty texts joined by one space are tidy. *)
Lemma tidy_join2 a b :
  tidy a = true -> a <> "" -> tidy b = true -> b <> "" ->
  tidy (a ++ " " ++ b) = true /\ a ++ " " ++ b <> "".
Proof.
  unfold tidy. intros Ha Na Hb Nb.
  apply andb_prop in Ha as [[Ha1 Ha2]%andb_prop Ha3].
  apply andb_prop in Hb as [[Hb1 Hb2]%andb_prop Hb3].
  apply negb_true_iff in Ha1, Ha2, Ha3, Hb1, Hb2, Hb3.
  split; [|now apply append_nonempty_l].
  destruct a as [|x a]; [congruence|].
  destruct b as [|y b]; [congruence|].
  change (String x a ++ " " ++ String y b)
    with (String x a ++ String " " (String y b)).
  rewrite double_space_app, starts_app, ends_app. cbv beta iota.
  rewrite Ha1, Ha2, Ha3.
  change (ends_with_space (String " " (String y b)))
    with (ends_with_space (String y b)).
  change (has_double_space (String " " (String y b)))
    with ((is_space32 " " && starts_with_space (String y b))
          || has_double_space (String y b)).
  rewrite Hb1, Hb2, Hb3. reflexivity.
Qed.

(** ** [split] and [join] *)

Lemma split_from_words s : forall w,
  all_chars is_word_char w = true ->
  all_chars (fun c => isspace c || is_word_char c) s = true ->
  Forall is_word (split_from w s).
Proof.
  induction s as [|c s IH]; intros w Hw Hs; simpl.
  - destruct w; [constructor|].
    constructor; [split; [discriminate | exact Hw] | constructor].
  - simpl in Hs. apply andb_prop in Hs as [Hc Hs].
    destruct (isspace c) eqn:Ec.
    + destruct w as [|x w].
      * now apply IH.
      * constructor; [split; [discriminate | exact Hw] | now apply IH].
    + apply IH; [|exact Hs].
      rewrite all_chars_app, Hw. simpl in *. now rewrite Hc.
Qed.

Lemma join_words ws :
  Forall is_word ws ->
  all_chars is_norm_char (join " " ws) = true
  /\ tidy (join " " ws) = true
  /\ (ws <> [] -> join " " ws <> "").
Proof.
  unfold join. induction 1 as [|w ws Hw Hws IH]; simpl.
  - repeat split; congruence.
  - destruct ws as [|v ws].
    + split; [now apply word_norm|].
      split; [now apply word_tidy | intros _; exact (proj1 Hw)].
    + destruct IH as (IH1 & IH2 & IH3).
      assert (Hne : concat " " (v :: ws) <> "") by (apply IH3; discriminate).
      destruct (tidy_join2 w (concat " " (v :: ws))) as [T N];
        [now apply word_tidy | exact (proj1 Hw) | exact IH2 | exact Hne |].
      split; [|split; [exact T | intros _; exact N]].
      rewrite all_chars_app, (word_norm w Hw).
      cbn [andb]. exact IH1.
Qed.

(** [clean_text] returns lowercase letters and digits in words separated
    by exactly one space, with no space at either end. *)
Lemma clean_text_normal text :
  all_chars is_norm_char (clean_text text) = true
  /\ tidy (clean_text text) = true.
Proof.
  destruct text as [s|]; [|split; reflexivity].
  destruct s as [|c s]; [split; reflexivity|].
  unfold clean_text.
  destruct (join_words (split (sub_special (lower (String c s)))))
    as (H1 & H2 & _); [|now split].
  apply split_from_words; [reflexivity|].
  unfold sub_special, lower. rewrite !all_chars_map.
  apply all_chars_true. intros x. apply normalised_char.
Qed.
End TextFacts.

(* ================================================================== *)
(** * Facts about the stable descending sort *)

Lemma Forall_perm {A : Type} (P : A -> Prop) (l l' : list A) :
  Permutation l l' -> Forall P l -> Forall P l'.
Proof.
  intros Hp. rewrite !Forall_forall. intros H x Hx. apply H.
  apply Permutation_in with (l := l'); [now symmetry | exact Hx].
Qed.

Lemma In_firstn {A : Type} (n : nat) (l : list A) (x : A) :
  In x (firstn n l) -> In x l.
Proof.
  revert l. induction n as [|n IH]; intros [|y r]; simpl; try tauto.
  intros [-> | H]; [now left | right; now apply IH].
Qed.

Section SortFacts.
Context {A : Type} (key : A -> R).

Lemma insert_desc_perm x l : Permutation (insert_desc key x l) (x :: l).
Proof.
  induction l as [|y r IH]; simpl; [reflexivity|].
  destruct (Rle_dec (key y) (key x)); [reflexivity|].
  rewrite IH. apply perm_swap.
Qed.

Lemma sort_desc_perm l : Permutation (sort_desc key l) l.
Proof.
  induction l as [|x r IH]; simpl; [constructor|].
  rewrite insert_desc_perm. now constructor.
Qed.

Lemma sort_desc_length l : List.length (sort_desc key l) = List.length l.
Proof. apply Permutation_length, sort_desc_perm. Qed.

Lemma sort_desc_In l x : In x (sort_desc key l) <-> In x l.
Proof.
  split; apply Permutation_in;
    [apply sort_desc_perm | symmetry; apply sort_desc_perm].
Qed.

Lemma ranks_before_key before a b : ranks_before key before a b -> key b <= key a.
Proof. intros [H | [H _]]; lra. Qed.

Lemma insert_desc_sorted before x l :
  StronglySorted (ranks_before key before) l ->
  Forall (before x) l ->
  StronglySorted (ranks_before key before) (insert_desc key x l).
Proof.
  induction l as [|y r IH]; intros Hs Hx; simpl.
  - repeat constructor.
  - apply StronglySorted_inv in Hs as [Hr Hy].
    apply Forall_cons_iff in Hx as [Hxy Hxr].
    destruct (Rle_dec (key y) (key x)) as [Hle | Hgt].
    + constructor; [now constructor|].
      constructor.
      * destruct Hle as [Hlt | Heq]; [now left | right; now split].
      * rewrite Forall_forall in *. intros z Hz.
        pose proof (ranks_before_key _ _ _ (Hy z Hz)) as Hzy.
        destruct (Rlt_dec (key z) (key x)) as [Hlt | Hnlt]; [now left|].
        right. split; [lra | now apply Hxr].
    + constructor; [now apply IH|].
      apply (Forall_perm _ (x :: r)); [symmetry; apply insert_desc_perm|].
      constructor; [left; lra | exact Hy].
Qed.

(** Stability: rows that were in [before] order come out ordered by
    descending key, equal keys keeping the [before] order. *)
Lemma sort_desc_stable before l :
  StronglySorted before l ->
  StronglySorted (ranks_before key before) (sort_desc key l).
Proof.
  induction l as [|x r IH]; intros Hs; simpl; [constructor|].
  apply StronglySorted_inv in Hs as [Hr Hx].
  apply insert_desc_sorted; [now apply IH|].
  apply (Forall_perm _ r); [symmetry; apply sort_desc_perm|].
  exact Hx.
Qed.

Lemma firstn_sorted (R' : A -> A -> Prop) n l :
  StronglySorted R' l -> StronglySorted R' (firstn n l).
Proof.
  revert l. induction n as [|n IH]; intros l Hs; simpl; [constructor|].
  destruct l as [|x r]; [constructor|].
  apply StronglySorted_inv in Hs as [Hr Hx].
  constructor; [now apply IH|].
  rewrite Forall_forall in *. intros z Hz. apply Hx.
  eapply In_firstn. exact Hz.
Qed.

Lemma filter_sorted (R' : A -> A -> Prop) f l :
  StronglySorted R' l -> StronglySorted R' (filter f l).
Proof.
  induction l as [|x r IH]; intros Hs; simpl; [constructor|].
  apply StronglySorted_inv in Hs as [Hr Hx].
  destruct (f x); [|now apply IH].
  constructor; [now apply IH|].
  rewrite Forall_forall in *. intros z [Hz _]%filter_In. now apply Hx.
Qed.
End SortFacts.

Lemma sort_desc_map {A B : Type} (key : B -> R) (f : A -> B) l :
  sort_desc key (map f l) = map f (sort_desc (fun a => key (f a)) l).
Proof.
  induction l as [|x r IH]; simpl; [reflexivity|].
  rewrite IH. generalize (sort_desc (fun a => key (f a)) r). intros s.
  induction s as [|y s IHs]; simpl; [reflexivity|].
  destruct (Rle_dec (key (f y)) (key (f x))); simpl; [reflexivity|].
  now rewrite IHs.
Qed.

Lemma slice_to_firstn {A : Type} (n : Z) (l : list A) :
  exists m, slice_to n l = firstn m l /\ (0 <= n -> m = Z.to_nat n)%Z.
Proof.
  unfold slice_to. destruct (Z.leb_spec 0 n).
  - eexists. split; [reflexivity | auto].
  - eexists. split; [reflexivity | lia].
Qed.

(* ================================================================== *)
(** * Facts about the search pipeline *)

Lemma indexed_from_spec {A : Type} (l : list A) : forall start,
  StronglySorted earlier (combine (seq start (List.length l)) l)
  /\ forall i a, In (i, a) (combine (seq start (List.length l)) l) ->
                 (start <= i)%nat /\ nth_error l (i - start) = Some a.
Proof.
  induction l as [|x r IH]; intros start; simpl.
  - split; [constructor | tauto].
  - destruct (IH (S start)) as [Hs Hin]. split.
    + constructor; [exact Hs|].
      apply Forall_forall. intros [i a] Hi.
      apply Hin in Hi as [Hi _]. unfold earlier. simpl. lia.
    + intros i a [Heq | Hi].
      * injection Heq as <- <-. split; [lia|].
        now rewrite Nat.sub_diag.
      * apply Hin in Hi as [Hi Hn]. split; [lia|].
        replace (i - start)%nat with (S (i - S start)) by lia. exact Hn.
Qed.

Lemma indexed_sorted {A : Type} (l : list A) :
  StronglySorted earlier (indexed l).
Proof. apply (indexed_from_spec l 0). Qed.

Lemma indexed_In {A : Type} (l : list A) i a :
  In (i, a) (indexed l) -> nth_error l i = Some a.
Proof.
  intros Hi. apply (indexed_from_spec l 0) in Hi as [_ Hn].
  now rewrite Nat.sub_0_r in Hn.
Qed.


Lemma sorted_map_inv {A B : Type} (f : A -> B) (R' : B -> B -> Prop) l :
  StronglySorted R' (map f l) ->
  StronglySorted (fun a b => R' (f a) (f b)) l.
Proof.
  induction l as [|x r IH]; simpl; intros Hs; [constructor|].
  apply StronglySorted_inv in Hs as [Hr Hx].
  constructor; [now apply IH|].
  rewrite Forall_forall in *. intros z Hz. apply Hx. now apply in_map.
Qed.

Lemma mapM_Ok {A B : Type} (f : A -> result B) l out :
  mapM f l = Ok out -> Forall2 (fun a b => f a = Ok b) l out.
Proof.
  revert out. induction l as [|a r IH]; simpl; intros out Hm.
  - injection Hm as <-. constructor.
  - unfold bind in Hm. destruct (f a) as [b|] eqn:Ef; [|discriminate].
    destruct (mapM f r) as [bs|]; [|discriminate].
    injection Hm as <-. constructor; [exact Ef | now apply IH].
Qed.

Section SearchFacts.
Context `{Libraries}.

Lemma apply_price_range_filter pr rows out :
  apply_price_range pr rows = Ok out -> exists f, out = filter f rows.
Proof.
  unfold apply_price_range. intros Hp.
  destruct pr as [[|lo [|hi [|? ?]]]|]; try discriminate;
    injection Hp as <-;
    solve [ exists (fun _ => true); clear; induction rows; simpl; congruence
          | eexists; reflexivity ].
Qed.

Lemma apply_brand_filter_filter bf rows out :
  apply_brand_filter bf rows = Ok out -> exists f, out = filter f rows.
Proof.
  unfold apply_brand_filter. intros Hb.
  assert (Hall : rows = filter (fun _ => true) rows)
    by (clear; induction rows; simpl; congruence).
  destruct bf as [b|]; [|injection Hb as <-; eexists; exact Hall].
  destruct ((b =? "")%string || (Text.lower b =? "all")%string);
    [injection Hb as <-; eexists; exact Hall|].
  destruct (re_search (Text.lower b)); [|discriminate].
  injection Hb as <-. eexists; reflexivity.
Qed.

Lemma similarity_scores_spec qv matrix rows scored :
  similarity_scores qv matrix rows = Ok scored ->
  map fst scored = rows
  /\ Forall (fun c => exists v, nth_error matrix (fst (fst c)) = Some v
                              /\ snd c = cosine_similarity qv v) scored.
Proof.
  intros Hm. apply mapM_Ok in Hm.
  induction Hm as [|ip c rows scored Hc _ [IH1 IH2]]; [split; constructor|].
  destruct (nth_error matrix (fst ip)) as [v|] eqn:Ev; [|discriminate].
  injection Hc as <-. simpl. split; [now rewrite IH1|].
  constructor; [|exact IH2]. exists v. now split.
Qed.

Lemma slice_to_map {A B : Type} (f : A -> B) n l :
  slice_to n (map f l) = map f (slice_to n l).
Proof. unfold slice_to. rewrite length_map. destruct (0 <=? n)%Z; apply firstn_map. Qed.

(** After a load, row [i] of the feature matrix is the vector of the
    text of row [i] of the catalog. *)
Lemma load_aligned rows files st :
  load_and_preprocess_data (Some rows) files = Some st ->
  exists products vectorizer,
    products_df st = Some products
    /\ fit (map combined_features products) = Some vectorizer
    /\ tfidf_vectorizer st = Some vectorizer
    /\ product_features_matrix st
       = Some (map (fun p => transform vectorizer (combined_features p))
                   products).
Proof.
  unfold load_and_preprocess_data. intros Hload.
  destruct files as [|f0 files']; [discriminate|].
  destruct (fit _) as [vectorizer|] eqn:Efit; [|discriminate].
  injection Hload as <-. eexists. exists vectorizer. simpl.
  split; [reflexivity|]. split; [exact Efit|]. split; [reflexivity|].
  now rewrite map_map.
Qed.

(** What a search that returns has computed: the ranked candidates
    [full], of which the result is a slice. *)
Lemma search_trace st query skin_concerns price_range brand_filter
      (top_n : Z) results :
  get_product_recommendations st query skin_concerns price_range
                              brand_filter top_n = Ok results ->
  exists full,
    results = map record_of (slice_to top_n full)
    /\ Forall (candidate st query skin_concerns) full
    /\ Forall (fun c => 0 < snd c) full
    /\ StronglySorted (ranks_before composite_of earlier_row) full.
Proof.
  unfold get_product_recommendations. intros Hg.
  change (@slice_stop Recommendation top_n) with (@slice_to Recommendation top_n) in Hg.
  assert (Hnil : results = [] ->
                 exists full,
                   results = map record_of (slice_to top_n full)
                   /\ Forall (candidate st query skin_concerns) full
                   /\ Forall (fun c => 0 < snd c) full
                   /\ StronglySorted (ranks_before composite_of earlier_row)
                                     full).
  { intros ->. exists []. unfold slice_to.
    destruct (0 <=? top_n)%Z; rewrite firstn_nil; repeat split; constructor. }
  destruct (products_df st) as [products|] eqn:Ep;
    [|injection Hg as <-; now apply Hnil].
  unfold bind in Hg.
  destruct (apply_price_range price_range (indexed products))
    as [by_price|] eqn:Eprice; [|discriminate].
  destruct (apply_brand_filter brand_filter by_price)
    as [filtered|] eqn:Ebrand; [|discriminate].
  destruct filtered as [|row0 rows0] eqn:Ef;
    [injection Hg as <-; now apply Hnil|].
  rewrite <- Ef in *. clear Hnil.
  destruct (tfidf_vectorizer st) as [vectorizer|] eqn:Ev; [|discriminate].
  destruct (product_features_matrix st) as [matrix|] eqn:Em; [|discriminate].
  match type of Hg with
  | context [similarity_scores ?qv matrix filtered] =>
      destruct (similarity_scores qv matrix filtered) as [scored|] eqn:Es;
        [|discriminate]
  end.
  injection Hg as <-.
  apply similarity_scores_spec in Es as [Hfst Hsim].
  apply apply_price_range_filter in Eprice as [f1 ->].
  apply apply_brand_filter_filter in Ebrand as [f2 Hf2].
  exists (sort_desc composite_of (filter (fun c => Rltb 0 (snd c)) scored)).
  split; [|split; [|split]].
  - rewrite <- slice_to_map. f_equal. unfold results_of.
    change (fun ips : nat * Product * R => make_result (snd (fst ips)) (snd ips))
      with record_of.
    now rewrite sort_desc_map.
  - apply Forall_forall. intros c Hc.
    apply sort_desc_In, filter_In in Hc as [Hc _].
    rewrite Forall_forall in Hsim. destruct (Hsim c Hc) as (v & Hv & Hs).
    split.
    + exists products. split; [exact Ep|].
      apply indexed_In.
      assert (Hin : In (fst c) filtered)
        by (rewrite <- Hfst; now apply in_map).
      rewrite Hf2 in Hin. apply filter_In in Hin as [Hin _].
      apply filter_In in Hin as [Hin _].
      now rewrite (surjective_pairing (fst c)) in Hin.
    + exists vectorizer, matrix, v. repeat split; assumption.
  - apply Forall_forall. intros c Hc.
    apply sort_desc_In, filter_In in Hc as [_ Hc].
    unfold Rltb in Hc. now destruct (Rlt_dec 0 (snd c)).
  - apply sort_desc_stable, filter_sorted.
    apply (sorted_map_inv fst earlier). rewrite Hfst, Hf2.
    apply filter_sorted, filter_sorted, indexed_sorted.
Qed.

(** The same trace, on the entries that are returned. *)
Lemma search_ranked st query skin_concerns price_range brand_filter
      (top_n : Z) results :
  get_product_recommendations st query skin_concerns price_range
                              brand_filter top_n = Ok results ->
  exists ranked,
    results = map record_of ranked
    /\ Forall (candidate st query skin_concerns) ranked
    /\ Forall (fun c => 0 < snd c) ranked
    /\ StronglySorted (ranks_before composite_of earlier_row) ranked.
Proof.
  intros (full & -> & Hc & Hp & Hs)%search_trace.
  destruct (slice_to_firstn top_n full) as (m & -> & _).
  exists (firstn m full). split; [reflexivity|].
  split; [|split; [|now apply firstn_sorted]];
    apply Forall_forall; intros c Hi%In_firstn;
    rewrite Forall_forall in Hc, Hp; auto.
Qed.
End SearchFacts.

(* ================================================================== *)
(** * The example run *)

Lemma Rltb_true x y : x < y -> Rltb x y = true.
Proof. unfold Rltb. intros Hxy. now destruct (Rlt_dec x y). Qed.

Lemma Rltb_false x y : y <= x -> Rltb x y = false.
Proof. unfold Rltb. intros Hyx. destruct (Rlt_dec x y); [lra | reflexivity]. Qed.

Lemma Rleb_true x y : x <= y -> Rleb x y = true.
Proof. unfold Rleb. intros Hxy. now destruct (Rle_dec x y). Qed.

Lemma Rleb_false x y : y < x -> Rleb x y = false.
Proof. unfold Rleb. intros Hyx. destruct (Rle_dec x y); [lra | reflexivity]. Qed.

Lemma Rleb_spec x y : Rleb x y = true <-> x <= y.
Proof. unfold Rleb. destruct (Rle_dec x y); split; auto; discriminate. Qed.

Ltac run_reals :=
  cbv -[Rltb Rleb IZR Rplus Rmult Rdiv Rinv Rminus Ropp Rle_dec Rlt_dec
        ln Rmin Rmax INR].

Module ExampleFacts.
Import Example.

Lemma load_example :
  load_and_preprocess_data (Some product_info) review_files = Some loaded.
Proof. reflexivity. Qed.

(** Only the serum contains the word of the query. *)
Lemma search_serum :
  get_product_recommendations loaded "serum" [] None None 12
  = Ok [make_result serum_row 1].
Proof.
  run_reals.
  rewrite (Rltb_true 0 1) by lra. rewrite !(Rltb_false 0 0) by lra.
  run_reals.
  rewrite (Rltb_true 0 30) by lra. reflexivity.
Qed.

(** Serum and cream contain the word of the query; the serum, rated 5,
    scores 1.2 and the cream, rated 4, scores 1.16. *)
Lemma search_hydrating :
  get_product_recommendations loaded "hydrating" [] None None 12
  = Ok [make_result serum_row 1; make_result cream_row 1].
Proof.
  run_reals.
  rewrite !(Rltb_true 0 1) by lra. rewrite !(Rltb_false 0 0) by lra.
  run_reals.
  rewrite (Rltb_true 0 30), (Rltb_true 0 40) by lra.
  match goal with
  | |- context [Rle_dec ?a ?b] => destruct (Rle_dec a b) as [Hle | Hgt]
  end; [reflexivity|].
  exfalso. apply Hgt. lra.
Qed.

Lemma load_lips :
  load_and_preprocess_data (Some lip_info) review_files = Some lip_loaded.
Proof. reflexivity. Qed.

(** The balm and the oil have the same trending score and come out in
    catalog order; the mask, rated 3, is not eligible. *)
Lemma trending_lips :
  get_trending lip_loaded
  = Some [trending_row (build_product reviews (sample reviews) lip_balm);
          trending_row (build_product reviews (sample reviews) lip_oil)].
Proof.
  run_reals.
  rewrite !(Rleb_true _ 5) by lra. rewrite (Rleb_false _ 3) by lra.
  run_reals.
  match goal with
  | |- context [Rle_dec ?a ?b] => destruct (Rle_dec a b) as [Hle | Hgt]
  end; [reflexivity|].
  exfalso. apply Hgt. lra.
Qed.

Lemma example_inputs_nonnegative :
  nonnegative_inputs product_info (List.concat review_files).
Proof.
  unfold nonnegative_inputs, product_info, review_files. simpl.
  repeat split; intros c x Hin Hx;
    repeat (destruct Hin as [<- | Hin]; [simpl in Hx; injection Hx as <-; lra || lia|]);
    destruct Hin.
Qed.
End ExampleFacts.

(** The concrete runs below are on the toy index of the example. *)
#[local] Existing Instance Example.toy.

(* ================================================================== *)
(** * The text of the catalog (C3) *)

(** C3, refuted as stated: the text built for a product is not
    single-spaced.  The serum of the example has no secondary category;
    its [combined_features] is
    ["hydrating serum a skincare  water glycerin"], with two consecutive
    spaces where the empty field was joined in. *)
Lemma C3_double_space_counterexample :
  combined_features Example.serum_row
  = "hydrating serum a skincare  water glycerin"
  /\ Text.has_double_space (combined_features Example.serum_row) = true.
Proof. split; vm_compute; reflexivity. Qed.

(** C3, amended: for every raw product record, [combined_features]
    contains only lowercase letters, digits and spaces; each of the five
    normalised fields it is made of is single-spaced and trimmed; and when
    none of the five is empty, the whole text is single-spaced and trimmed
    (the fields are joined by one space each whether they are empty or
    not). *)
Theorem C3_combined_features_text `{Libraries}
        (reviews sampled : list Review) (c : CsvProduct) :
  let p := build_product reviews sampled c in
  let fields :=
    [product_name_clean p; brand_name_clean p;
     Text.clean_text (Some (primary_category p));
     Text.clean_text (Some (secondary_category p));
     ingredients_clean p] in
  combined_features p = Text.join " " fields
  /\ Text.all_chars Text.is_norm_char (combined_features p) = true
  /\ Forall (fun f => Text.tidy f = true) fields
  /\ (Forall (fun f => f <> "") fields ->
      Text.tidy (combined_features p) = true).
Proof.
  intros p fields. subst p fields.
  cbn [combined_features product_name_clean brand_name_clean
       ingredients_clean primary_category secondary_category build_product].
  set (name := Text.clean_text (Some (csv_product_name c))).
  set (brand := Text.clean_text _).
  set (primary := Text.clean_text _).
  set (secondary := Text.clean_text _).
  set (ingr := Text.clean_text _).
  assert (Hn := TextFacts.clean_text_normal (Some (csv_product_name c))).
  assert (Hb : Text.all_chars Text.is_norm_char brand = true
               /\ Text.tidy brand = true)
    by apply TextFacts.clean_text_normal.
  assert (Hp : Text.all_chars Text.is_norm_char primary = true
               /\ Text.tidy primary = true)
    by apply TextFacts.clean_text_normal.
  assert (Hs : Text.all_chars Text.is_norm_char secondary = true
               /\ Text.tidy secondary = true)
    by apply TextFacts.clean_text_normal.
  assert (Hi : Text.all_chars Text.is_norm_char ingr = true
               /\ Text.tidy ingr = true)
    by apply TextFacts.clean_text_normal.
  fold name in Hn.
  destruct Hn as [Hn1 Hn2], Hb as [Hb1 Hb2], Hp as [Hp1 Hp2],
           Hs as [Hs1 Hs2], Hi as [Hi1 Hi2].
  split; [reflexivity|]. split; [|split].
  - rewrite !TextFacts.all_chars_app, Hn1, Hb1, Hp1, Hs1, Hi1. reflexivity.
  - repeat constructor; assumption.
  - intros Hne.
    repeat match goal with
           | Hf : Forall _ (_ :: _) |- _ =>
               apply Forall_cons_iff in Hf as [? Hf]
           end.
    destruct (TextFacts.tidy_join2 secondary ingr) as [T1 N1]; auto.
    destruct (TextFacts.tidy_join2 primary _ Hp2 ltac:(assumption) T1 N1)
      as [T2 N2].
    destruct (TextFacts.tidy_join2 brand _ Hb2 ltac:(assumption) T2 N2)
      as [T3 N3].
    now destruct (TextFacts.tidy_join2 name _ Hn2 ltac:(assumption) T3 N3).
Qed.

(** The amended C3 on the cream of the example, whose five fields are all
    non-empty. *)
Lemma C3_combined_features_text_witness :
  Text.tidy (combined_features Example.cream_row) = true.
Proof.
  apply (C3_combined_features_text (H := Example.toy)
           Example.reviews Example.reviews Example.cream).
  repeat constructor; vm_compute; discriminate.
Defined.

(* ================================================================== *)
(** * The search (C1, C2, C4, C5, C7, C10) *)

(** C7, amended: when the catalog has not been built ([products_df] is
    still [None], as before any load) the search returns the empty list,
    whatever the query, the filters and the limit; it raises nothing.
    (The guard looks at the catalog only, not at the index.) *)
Theorem C7_not_ready_returns_empty `{Libraries} (st : State)
        (query : string) (skin_concerns : list string)
        (price_range : option (list R)) (brand_filter : option string)
        (top_n : Z) :
  products_df st = None ->
  get_product_recommendations st query skin_concerns price_range
                              brand_filter top_n = Ok [].
Proof. unfold get_product_recommendations. now intros ->. Qed.

(** C7, refuted as stated for the index: in the state a load leaves
    when it stops after reading the products (catalog set, vectorizer and
    feature matrix not), the search for "hydrating" does not return the
    empty list, it raises AttributeError. *)
Lemma C7_index_not_built_counterexample :
  products_df MoreExamples.catalog_only = Some Example.catalog
  /\ tfidf_vectorizer MoreExamples.catalog_only = None
  /\ product_features_matrix MoreExamples.catalog_only = None
  /\ get_product_recommendations MoreExamples.catalog_only "hydrating" []
                                 None None 12
     = Raise AttributeError.
Proof. repeat split. Qed.

(** C7 on the globals as they are before the load, with a price range
    that would not even unpack. *)
Lemma C7_not_ready_returns_empty_witness :
  get_product_recommendations (H := Example.toy) initial_state "hydrating"
                              ["dryness"] (Some [5]) (Some "(") 12
  = Ok [].
Proof.
  apply (C7_not_ready_returns_empty (H := Example.toy)). reflexivity.
Defined.

(** C1: every record the search returns is the record [make_result p s]
    of a scored candidate [(i, p, s)]: [p] is row [i] of the catalog (the
    record shows its id, name, rating, review count and sentiment), its
    similarity score is [s], the cosine similarity of the vector of the
    augmented query with row [i] of the feature matrix, and its composite
    score is
    [s + (final_rating / 5.0) * 0.2
       + min (ln (1 + final_review_count) / 10, 0.1)
       + max (avg_sentiment, 0) * 0.1], on the columns of that row. *)
Theorem C1_composite_score_formula `{Libraries} (st : State)
        (query : string) (skin_concerns : list string)
        (price_range : option (list R)) (brand_filter : option string)
        (top_n : Z) (results : list Recommendation) :
  get_product_recommendations st query skin_concerns price_range
                              brand_filter top_n = Ok results ->
  forall r, In r results ->
  exists i p s,
    candidate st query skin_concerns (i, p, s)
    /\ r = make_result p s
    /\ r_product_id r = product_id p
    /\ r_product_name r = product_name p
    /\ r_rating r = final_rating p
    /\ r_review_count r = final_review_count p
    /\ r_sentiment_score r = avg_sentiment p
    /\ r_similarity_score r = s
    /\ r_composite_score r
       = s + (final_rating p / 5.0) * 0.2
         + Rmin (ln (1 + IZR (final_review_count p)) / 10) 0.1
         + Rmax (avg_sentiment p) 0 * 0.1.
Proof.
  intros (ranked & -> & Hc & _)%search_ranked r Hr.
  apply in_map_iff in Hr as ([[i p] s] & <- & Hin).
  rewrite Forall_forall in Hc. exists i, p, s.
  split; [now apply Hc|]. repeat split; reflexivity.
Qed.

(** C1 on the example: the search for "serum" returns the serum. *)
Lemma C1_composite_score_formula_witness :
  exists i p s,
    candidate Example.loaded "serum" [] (i, p, s)
    /\ make_result Example.serum_row 1 = make_result p s
    /\ r_product_id (make_result Example.serum_row 1) = product_id p
    /\ r_product_name (make_result Example.serum_row 1) = product_name p
    /\ r_rating (make_result Example.serum_row 1) = final_rating p
    /\ r_review_count (make_result Example.serum_row 1)
       = final_review_count p
    /\ r_sentiment_score (make_result Example.serum_row 1) = avg_sentiment p
    /\ r_similarity_score (make_result Example.serum_row 1) = s
    /\ r_composite_score (make_result Example.serum_row 1)
       = s + (final_rating p / 5.0) * 0.2
         + Rmin (ln (1 + IZR (final_review_count p)) / 10) 0.1
         + Rmax (avg_sentiment p) 0 * 0.1.
Proof.
  apply (C1_composite_score_formula (H := Example.toy) _ _ _ _ _ _ _
           ExampleFacts.search_serum).
  now left.
Defined.

(** C5: the records returned are those of candidates whose similarity is
    strictly positive; a candidate whose similarity with the query is
    exactly 0 is the source of none of them, whatever its rating, review
    count and sentiment. *)
Theorem C5_zero_similarity_excluded `{Libraries} (st : State)
        (query : string) (skin_concerns : list string)
        (price_range : option (list R)) (brand_filter : option string)
        (top_n : Z) (results : list Recommendation) :
  get_product_recommendations st query skin_concerns price_range
                              brand_filter top_n = Ok results ->
  exists ranked,
    results = map record_of ranked
    /\ Forall (candidate st query skin_concerns) ranked
    /\ Forall (fun r => 0 < r_similarity_score r) results
    /\ forall i p, candidate st query skin_concerns (i, p, 0) ->
                   ~ In i (map (fun c => fst (fst c)) ranked).
Proof.
  intros (ranked & -> & Hc & Hp & _)%search_ranked.
  exists ranked. split; [reflexivity|]. split; [exact Hc|].
  rewrite Forall_forall in Hc, Hp. split.
  - apply Forall_forall. intros r ([[i p] s] & <- & Hin)%in_map_iff.
    exact (Hp _ Hin).
  - intros i p [_ (vz & m & v & Hvz & Hm & Hv & Hs)] Hi.
    apply in_map_iff in Hi as ([[j q] s] & Hj & Hin). simpl in *. subst j.
    pose proof (Hp _ Hin) as Hpos.
    destruct (Hc _ Hin) as [_ (vz' & m' & v' & Hvz' & Hm' & Hv' & Hs')].
    simpl in *. rewrite Hvz in Hvz'. injection Hvz' as <-.
    rewrite Hm in Hm'. injection Hm' as <-.
    rewrite Hv in Hv'. injection Hv' as <-.
    rewrite Hs', <- Hs in Hpos. lra.
Qed.

(** C5 on the example: the search for "serum" returns one record, with
    similarity 1. *)
Lemma C5_zero_similarity_excluded_witness :
  exists ranked,
    [make_result Example.serum_row 1] = map record_of ranked
    /\ Forall (candidate Example.loaded "serum" []) ranked
    /\ Forall (fun r => 0 < r_similarity_score r)
              [make_result Example.serum_row 1]
    /\ forall i p, candidate Example.loaded "serum" [] (i, p, 0) ->
                   ~ In i (map (fun c => fst (fst c)) ranked).
Proof.
  exact (C5_zero_similarity_excluded (H := Example.toy) _ _ _ _ _ _ _
           ExampleFacts.search_serum).
Defined.

(** C4: the result list is the list of records of candidates in
    descending order of composite score, and of two candidates with the
    same composite score the one that comes first in the catalog comes
    first in the result. *)
Theorem C4_descending_stable_order `{Libraries} (st : State)
        (query : string) (skin_concerns : list string)
        (price_range : option (list R)) (brand_filter : option string)
        (top_n : Z) (results : list Recommendation) :
  get_product_recommendations st query skin_concerns price_range
                              brand_filter top_n = Ok results ->
  exists ranked,
    results = map record_of ranked
    /\ Forall (candidate st query skin_concerns) ranked
    /\ StronglySorted
         (fun a b => composite_of b < composite_of a
                     \/ (composite_of a = composite_of b
                         /\ (fst (fst a) < fst (fst b))%nat))
         ranked
    /\ StronglySorted
         (fun x y => r_composite_score y <= r_composite_score x) results.
Proof.
  intros (ranked & -> & Hc & _ & Hs)%search_ranked.
  exists ranked. split; [reflexivity|]. split; [exact Hc|].
  split; [exact Hs|].
  clear Hc. induction Hs as [|a l Hl IH Ha]; simpl; constructor; [exact IH|].
  rewrite Forall_forall in *. intros y (b & <- & Hb)%in_map_iff.
  exact (ranks_before_key _ _ _ _ (Ha b Hb)).
Qed.

(** C4 on the example search for "hydrating": the serum before the
    cream. *)
Lemma C4_descending_stable_order_witness :
  exists ranked,
    [make_result Example.serum_row 1; make_result Example.cream_row 1]
    = map record_of ranked
    /\ Forall (candidate Example.loaded "hydrating" []) ranked
    /\ StronglySorted
         (fun a b => composite_of b < composite_of a
                     \/ (composite_of a = composite_of b
                         /\ (fst (fst a) < fst (fst b))%nat))
         ranked
    /\ StronglySorted
         (fun x y => r_composite_score y <= r_composite_score x)
         [make_result Example.serum_row 1; make_result Example.cream_row 1].
Proof.
  exact (C4_descending_stable_order (H := Example.toy) _ _ _ _ _ _ _
           ExampleFacts.search_hydrating).
Defined.

(** C2, refuted as stated: a negative limit does not give the empty
    list.  On the example the search for "hydrating" ranks the serum
    (composite 1.2) before the cream (1.16); with [top_n = -1] the slice
    [results[:-1]] drops the last entry only and the serum is returned. *)
Lemma C2_negative_limit_counterexample :
  (-1 <= 0)%Z
  /\ get_product_recommendations Example.loaded "hydrating" [] None None (-1)
     = Ok [make_result Example.serum_row 1].
Proof.
  split; [lia|].
  run_reals.
  rewrite !(Rltb_true 0 1) by lra. rewrite !(Rltb_false 0 0) by lra.
  run_reals.
  rewrite (Rltb_true 0 30), (Rltb_true 0 40) by lra.
  match goal with
  | |- context [Rle_dec ?a ?b] => destruct (Rle_dec a b) as [Hle | Hgt]
  end; [reflexivity|].
  exfalso. apply Hgt. lra.
Qed.

(** C2, amended: for every query and filter combination and every limit
    [top_n >= 0], the search returns at most [top_n] results, and
    [top_n = 0] gives the empty list.  (Nothing is promised for a negative
    limit.) *)
Theorem C2_at_most_top_n `{Libraries} (st : State)
        (query : string) (skin_concerns : list string)
        (price_range : option (list R)) (brand_filter : option string)
        (top_n : Z) (results : list Recommendation) :
  (0 <= top_n)%Z ->
  get_product_recommendations st query skin_concerns price_range
                              brand_filter top_n = Ok results ->
  (List.length results <= Z.to_nat top_n)%nat
  /\ (top_n = 0%Z -> results = []).
Proof.
  intros Hn (full & -> & _)%search_trace.
  destruct (slice_to_firstn top_n full) as (m & -> & Hm).
  rewrite (Hm Hn), length_map. split; [apply firstn_le_length|].
  now intros ->.
Qed.

(** The amended C2 on the example search for "serum" with the default
    limit. *)
Lemma C2_at_most_top_n_witness :
  (List.length [make_result Example.serum_row 1] <= Z.to_nat 12)%nat
  /\ (12%Z = 0%Z -> [make_result Example.serum_row 1] = []).
Proof.
  apply (C2_at_most_top_n Example.loaded "serum" [] None None 12);
    [lia | exact ExampleFacts.search_serum].
Defined.

(** The handler's default limit: a request without [limit] is answered
    with at most 12 products. *)
Lemma search_products_default_limit `{Libraries} (req : SearchRequest)
      (st : State) query total products :
  req_limit req = None ->
  fst (search_products req st) = Ok200 query total products ->
  (List.length products <= 12)%nat /\ total = List.length products.
Proof.
  unfold search_products. intros ->. simpl.
  destruct (fillna (req_query req) "" =? "")%string; [discriminate|].
  destruct (get_product_recommendations _ _ _ _ _ _) as [rs|] eqn:Eg;
    [|discriminate].
  simpl. intros [= _ <- <-]. split; [|reflexivity].
  apply search_trace in Eg as (full & -> & _).
  rewrite length_map. apply (firstn_le_length 12).
Qed.

(** ** Bonuses are not negative *)

Lemma Rsum_nonneg xs : Forall (fun x => 0 <= x) xs -> 0 <= Rsum xs.
Proof. induction 1 as [|x r Hx _ IH]; simpl; lra. Qed.

Lemma mean_nonneg xs m :
  Forall (fun x => 0 <= x) xs -> mean xs = Some m -> 0 <= m.
Proof.
  intros Hxs. destruct xs as [|x r]; [discriminate|].
  assert (Hpos : 0 < INR (List.length (x :: r)))
    by (apply lt_0_INR; simpl; lia).
  unfold mean. intros [= <-].
  apply Rmult_le_pos; [exact (Rsum_nonneg _ Hxs)|].
  apply Rlt_le, Rinv_0_lt_compat. exact Hpos.
Qed.

Lemma ratings_of_nonneg rs pid :
  (forall rv x, In rv rs -> review_rating rv = Some x -> 0 <= x) ->
  Forall (fun x => 0 <= x) (ratings_of (group_of rs pid)).
Proof.
  intros Hrs. apply Forall_forall. intros x Hx.
  unfold ratings_of in Hx. apply in_flat_map in Hx as (rv & Hrv & Hx).
  apply filter_In in Hrv as [Hrv _].
  destruct (review_rating rv) as [y|] eqn:Ey; [|destruct Hx].
  destruct Hx as [<- | []]. now apply (Hrs rv).
Qed.

Lemma review_stats_nonneg `{Libraries} reviews pid m cnt :
  (forall rv x, In rv reviews -> review_rating rv = Some x -> 0 <= x) ->
  merge_left (review_stats reviews) pid = Some (m, cnt) ->
  (forall x, m = Some x -> 0 <= x) /\ (0 <= cnt)%Z.
Proof.
  intros Hrv. destruct pid as [k|]; [|discriminate].
  unfold merge_left, review_stats.
  pose proof (ratings_of_nonneg reviews k Hrv) as Hg.
  destruct (group_of reviews k) as [|rv g]; [discriminate|].
  intros [= <- <-]. split; [|lia].
  intros x Hx. exact (mean_nonneg _ _ Hg Hx).
Qed.

Lemma build_product_nonneg `{Libraries} reviews sampled c :
  (forall x, csv_rating c = Some x -> 0 <= x) ->
  (forall n, csv_reviews c = Some n -> (0 <= n)%Z) ->
  (forall rv x, In rv reviews -> review_rating rv = Some x -> 0 <= x) ->
  0 <= final_rating (build_product reviews sampled c)
  /\ (0 <= final_review_count (build_product reviews sampled c))%Z.
Proof.
  intros Hr Hn Hrv.
  assert (Hr0 : 0 <= fillna (csv_rating c) 0)
    by (destruct (csv_rating c); simpl; [now apply Hr | lra]).
  assert (Hn0 : (0 <= fillna (csv_reviews c) 0)%Z)
    by (destruct (csv_reviews c); simpl; [now apply Hn | lia]).
  unfold build_product. cbn [final_rating final_review_count].
  destruct (merge_left (review_stats reviews) (read_cell (csv_product_id c)))
    as [[m cnt]|] eqn:Es; [|now split].
  destruct (review_stats_nonneg _ _ _ _ Hrv Es) as [Hm Hc].
  split; [|exact Hc].
  destruct m as [x|]; [now apply Hm | exact Hr0].
Qed.

Lemma log1p_nonneg (n : Z) : (0 <= n)%Z -> 0 <= log1p (IZR n).
Proof.
  intros Hn. unfold log1p. apply IZR_le in Hn.
  destruct (Req_dec (IZR n) 0) as [-> | Hne].
  - rewrite Rplus_0_r, ln_1. lra.
  - rewrite <- ln_1. apply Rlt_le, ln_increasing; lra.
Qed.

Lemma composite_ge_base `{Libraries} (p : Product) (base : R) :
  0 <= final_rating p -> (0 <= final_review_count p)%Z ->
  base <= composite_score_of p base.
Proof.
  intros Hr Hn. unfold composite_score_of.
  pose proof (log1p_nonneg _ Hn) as Hl.
  assert (0 <= Rmin (log1p (IZR (final_review_count p)) / 10) 0.1)
    by (apply Rmin_glb; lra).
  pose proof (Rmax_r (avg_sentiment p) 0).
  lra.
Qed.

(** C10: on a catalog loaded from files whose ratings and review counts
    are not negative, every record the search returns has a composite score
    at least as large as its similarity score: the three bonuses are not
    negative. *)
Theorem C10_composite_at_least_similarity `{Libraries}
        (rows : list CsvProduct) (files : list (list Review)) (st : State)
        (query : string) (skin_concerns : list string)
        (price_range : option (list R)) (brand_filter : option string)
        (top_n : Z) (results : list Recommendation) :
  load_and_preprocess_data (Some rows) files = Some st ->
  nonnegative_inputs rows (List.concat files) ->
  get_product_recommendations st query skin_concerns price_range
                              brand_filter top_n = Ok results ->
  forall r, In r results -> r_similarity_score r <= r_composite_score r.
Proof.
  intros Hload (Hrat & Hcnt & Hrev) (ranked & -> & Hc & _)%search_ranked r Hr.
  apply in_map_iff in Hr as ([[i p] s] & <- & Hin).
  rewrite Forall_forall in Hc.
  destruct (Hc _ Hin) as [(products & Hdf & Hnth) _]. simpl in *.
  unfold load_and_preprocess_data in Hload.
  destruct files as [|f0 files']; [discriminate|].
  destruct (fit _); [|discriminate].
  injection Hload as <-. simpl in Hdf. injection Hdf as <-.
  apply nth_error_In, in_map_iff in Hnth as (c & <- & Hc0).
  apply filter_In in Hc0 as [Hc0 _].
  destruct (build_product_nonneg (List.concat (f0 :: files'))
              (sample (List.concat (f0 :: files'))) c) as [H1 H2].
  - intros x. now apply Hrat.
  - intros n. now apply Hcnt.
  - exact Hrev.
  - now apply composite_ge_base.
Qed.

(** C10 on the example: the catalog as loaded, the search for "serum". *)
Lemma C10_composite_at_least_similarity_witness :
  r_similarity_score (make_result Example.serum_row 1)
  <= r_composite_score (make_result Example.serum_row 1).
Proof.
  apply (C10_composite_at_least_similarity
           Example.product_info Example.review_files Example.loaded
           "serum" [] None None 12 [make_result Example.serum_row 1]
           ExampleFacts.load_example ExampleFacts.example_inputs_nonnegative
           ExampleFacts.search_serum).
  now left.
Defined.

(* ================================================================== *)
(** * Malformed price ranges (C6) *)

(** C6, refuted as stated: a price range with min greater than max is
    not rejected.  On the example catalog the request for "hydrating" with
    the price range [[50, 10]] is answered normally, with no product. *)
Lemma C6_inverted_range_counterexample :
  search_products Example.inverted_range Example.loaded
  = (Ok200 "hydrating" 0 [], Example.loaded).
Proof.
  run_reals.
  rewrite (Rleb_false 50 30), (Rleb_false 50 15), (Rleb_false 50 40) by lra.
  reflexivity.
Qed.

Lemma inverted_range_empty (lo hi : R) (rows : list (nat * Product)) :
  hi < lo ->
  filter (fun ip => Rleb lo (price_usd (snd ip))
                    && Rleb (price_usd (snd ip)) hi) rows = [].
Proof.
  intros Hlt. induction rows as [|ip rows IH]; simpl; [reflexivity|].
  destruct (Rleb lo (price_usd (snd ip))) eqn:E1; [|exact IH].
  destruct (Rleb (price_usd (snd ip)) hi) eqn:E2; [|exact IH].
  apply Rleb_spec in E1, E2. lra.
Qed.

(** C6, amended: on a loaded catalog and for a non-empty query, the
    handler never changes the core state; a price range with min greater
    than max is not rejected but applied as a filter that no price
    satisfies, and the answer is a normal one with no product (the brand
    filter being absent or well-formed); a price range that is a list of
    one number, or of more than two, fails to unpack and is answered with a
    server error (status 500, ValueError), not with a dedicated
    invalid-filter rejection. *)
Theorem C6_price_range_handling `{Libraries} (req : SearchRequest)
        (st : State) (products : list Product) (query : string) :
  products_df st = Some products ->
  req_query req = Some query ->
  query <> "" ->
  snd (search_products req st) = st
  /\ (forall lo hi,
         req_price_range req = Some [lo; hi] -> hi < lo ->
         apply_brand_filter (req_brand req) [] = Ok [] ->
         fst (search_products req st) = Ok200 query 0 [])
  /\ (forall bounds,
         req_price_range req = Some bounds ->
         List.length bounds <> 0%nat -> List.length bounds <> 2%nat ->
         fst (search_products req st) = ServerError500 ValueError).
Proof.
  intros Hdf Hq Hne. unfold search_products. rewrite Hq. simpl.
  apply String.eqb_neq in Hne. rewrite Hne.
  split; [now destruct (get_product_recommendations _ _ _ _ _ _)|].
  unfold get_product_recommendations. rewrite Hdf. split.
  - intros lo hi -> Hlt Hb. simpl.
    rewrite inverted_range_empty by exact Hlt. simpl.
    rewrite Hb. reflexivity.
  - intros bounds -> H0 H2.
    destruct bounds as [|x [|y [|z more]]]; simpl in *;
      try reflexivity; congruence.
Qed.

(** The amended C6 on the inverted range of the example. *)
Lemma C6_price_range_handling_witness :
  snd (search_products Example.inverted_range Example.loaded) = Example.loaded
  /\ (forall lo hi,
         req_price_range Example.inverted_range = Some [lo; hi] -> hi < lo ->
         apply_brand_filter (req_brand Example.inverted_range) [] = Ok [] ->
         fst (search_products Example.inverted_range Example.loaded)
         = Ok200 "hydrating" 0 [])
  /\ (forall bounds,
         req_price_range Example.inverted_range = Some bounds ->
         List.length bounds <> 0%nat -> List.length bounds <> 2%nat ->
         fst (search_products Example.inverted_range Example.loaded)
         = ServerError500 ValueError).
Proof.
  apply (C6_price_range_handling Example.inverted_range Example.loaded
           Example.catalog "hydrating");
    [reflexivity | reflexivity | discriminate].
Defined.

(** A price range with one bound only, on the example catalog: the
    unpacking fails and the request is answered with status 500. *)
Lemma one_bound_example :
  search_products
    {| req_query := Some "hydrating"; req_skin_concerns := None;
       req_price_range := Some [10]; req_brand := None;
       req_limit := None |} Example.loaded
  = (ServerError500 ValueError, Example.loaded).
Proof. reflexivity. Qed.

(* ================================================================== *)
(** * The build (C8) *)

Lemma is_na_empty : is_na "" = true.
Proof. reflexivity. Qed.

(** C8: after a successful load the catalog consists of exactly the rows
    of the product file whose name cell is not missing, in file order,
    one product per row; a row whose name cell is empty (or any other
    token read as missing) has no product, and no other row is dropped. *)
Theorem C8_only_nameless_rows_dropped `{Libraries}
        (rows : list CsvProduct) (files : list (list Review)) (st : State) :
  load_and_preprocess_data (Some rows) files = Some st ->
  exists products,
    products_df st = Some products
    /\ map (fun p => (product_id p, product_name p)) products
       = map (fun c => (read_cell (csv_product_id c), csv_product_name c))
             (filter (fun c => negb (is_na (csv_product_name c))) rows)
    /\ (forall p, In p products ->
                  product_name p <> "" /\ is_na (product_name p) = false)
    /\ (forall c, In c rows -> is_na (csv_product_name c) = false ->
                  exists p, In p products
                            /\ product_name p = csv_product_name c
                            /\ product_id p = read_cell (csv_product_id c)).
Proof.
  unfold load_and_preprocess_data. intros Hload.
  destruct files as [|f0 files']; [discriminate|].
  destruct (fit _); [|discriminate].
  injection Hload as <-. eexists. split; [reflexivity|].
  set (build := build_product _ _).
  split; [|split].
  - rewrite map_map. reflexivity.
  - intros p (c & <- & Hc)%in_map_iff.
    apply filter_In in Hc as [_ Hc]. unfold has_name in Hc.
    apply negb_true_iff in Hc. simpl. split; [|exact Hc].
    intros Hname. rewrite Hname in Hc. discriminate.
  - intros c Hc Hna. exists (build c). split; [|split; reflexivity].
    apply in_map, filter_In. split; [exact Hc|].
    unfold has_name. now rewrite Hna.
Qed.

(** C8 on the example: of the four rows of the file, the one without a
    name is not in the catalog. *)
Lemma C8_only_nameless_rows_dropped_witness :
  exists products,
    products_df Example.loaded = Some products
    /\ map (fun p => (product_id p, product_name p)) products
       = map (fun c => (read_cell (csv_product_id c), csv_product_name c))
             (filter (fun c => negb (is_na (csv_product_name c)))
                     Example.product_info)
    /\ (forall p, In p products ->
                  product_name p <> "" /\ is_na (product_name p) = false)
    /\ (forall c, In c Example.product_info ->
                  is_na (csv_product_name c) = false ->
                  exists p, In p products
                            /\ product_name p = csv_product_name c
                            /\ product_id p = read_cell (csv_product_id c)).
Proof.
  exact (C8_only_nameless_rows_dropped Example.product_info
           Example.review_files Example.loaded ExampleFacts.load_example).
Defined.

(* ================================================================== *)
(** * Trending (C9) *)

Lemma nth_error_indexed_from {A : Type} (l : list A) : forall start k a,
  nth_error l k = Some a ->
  In ((start + k)%nat, a) (combine (seq start (List.length l)) l).
Proof.
  induction l as [|x r IH]; intros start [|k] a Hk; simpl in *;
    try discriminate.
  - left. injection Hk as <-. now rewrite Nat.add_0_r.
  - right. replace (start + S k)%nat with (S start + k)%nat by lia.
    now apply IH.
Qed.

Lemma nth_error_indexed {A : Type} (l : list A) i a :
  nth_error l i = Some a -> In (i, a) (indexed l).
Proof. apply (nth_error_indexed_from l 0). Qed.


Lemma sorted_app_inv {A : Type} (R' : A -> A -> Prop) l1 l2 :
  StronglySorted R' (l1 ++ l2) ->
  forall a b, In a l1 -> In b l2 -> R' a b.
Proof.
  induction l1 as [|x r IH]; simpl; intros Hs a b Ha Hb; [destruct Ha|].
  apply StronglySorted_inv in Hs as [Hr Hx].
  destruct Ha as [<- | Ha]; [|now apply IH].
  rewrite Forall_forall in Hx. apply Hx, in_or_app. now right.
Qed.




(* ================================================================== *)
(** * More on [clean_text] *)

Module CleanFacts.
Import Text TextFacts.

Lemma norm_char_fixed (c : ascii) :
  is_norm_char c = true -> lower_char c = c /\ keep_char c = true.
Proof.
  destruct c as [[] [] [] [] [] [] [] []]; vm_compute;
    intros Hc; (discriminate Hc || (split; reflexivity)).
Qed.

Lemma word_char_not_isspace (c : ascii) :
  is_word_char c = true -> isspace c = false.
Proof. destruct c as [[] [] [] [] [] [] [] []]; vm_compute; congruence. Qed.

(** A normalised text is left alone by the lowercasing and by the
    substitution of the special characters. *)
Lemma sub_special_lower_fixed s :
  all_chars is_norm_char s = true -> sub_special (lower s) = s.
Proof.
  unfold sub_special, lower.
  induction s as [|c s IH]; simpl; [reflexivity|].
  intros [Hc Hs]%andb_prop. destruct (norm_char_fixed c Hc) as [-> ->].
  now rewrite IH.
Qed.

(** Reading a word: the characters of a word extend the run being read. *)
Lemma split_from_word w : forall acc rest,
  all_chars is_word_char w = true ->
  split_from acc (w ++ rest) = split_from (acc ++ w) rest.
Proof.
  induction w as [|c w IH]; intros acc rest Hw; simpl.
  - now rewrite append_empty_r.
  - simpl in Hw. apply andb_prop in Hw as [Hc Hw].
    rewrite (word_char_not_isspace c Hc), IH by exact Hw.
    now rewrite append_assoc.
Qed.

(** Splitting the words joined by single spaces gives the words back. *)
Lemma split_join ws : Forall is_word ws -> split (join " " ws) = ws.
Proof.
  unfold split, join. induction 1 as [|w ws [Hne Hw] Hws IH]; [reflexivity|].
  destruct ws as [|v ws].
  - simpl. rewrite <- (append_empty_r w) at 1.
    rewrite split_from_word by exact Hw. simpl.
    destruct w; [congruence | reflexivity].
  - change (concat " " (w :: v :: ws))
      with (w ++ String " " (concat " " (v :: ws))).
    rewrite split_from_word by exact Hw.
    change ("" ++ w) with w. cbn [split_from].
    change (isspace " ") with true. cbv iota.
    rewrite IH. destruct w; [congruence | reflexivity].
Qed.

(** What [clean_text] returns is a list of words joined by single
    spaces. *)
Lemma clean_text_words text :
  exists ws, Forall is_word ws /\ clean_text text = join " " ws.
Proof.
  destruct text as [[|c s]|]; try (exists []; split; [constructor | reflexivity]).
  exists (split (sub_special (lower (String c s)))). split; [|reflexivity].
  apply split_from_words; [reflexivity|].
  unfold sub_special, lower. rewrite !all_chars_map.
  apply all_chars_true. intros x. apply normalised_char.
Qed.

Lemma clean_text_of_words ws :
  Forall is_word ws -> clean_text (Some (join " " ws)) = join " " ws.
Proof.
  intros Hws. destruct (join " " ws) as [|c s] eqn:Ej; [reflexivity|].
  unfold clean_text. rewrite <- Ej.
  destruct (join_words ws Hws) as (Hn & _ & _).
  now rewrite sub_special_lower_fixed, split_join.
Qed.
End CleanFacts.

(** X1: whatever the input (a missing cell, the empty string, any text),
    [clean_text] returns only lowercase letters, digits and spaces, with
    no space at either end and no two spaces in a row. *)
Theorem X1_clean_text_normal_form (text : option string) :
  Text.all_chars Text.is_norm_char (Text.clean_text text) = true
  /\ Text.starts_with_space (Text.clean_text text) = false
  /\ Text.ends_with_space (Text.clean_text text) = false
  /\ Text.has_double_space (Text.clean_text text) = false.
Proof.
  destruct (TextFacts.clean_text_normal text) as [Hn Ht].
  unfold Text.tidy in Ht.
  apply andb_prop in Ht as [[H1 H2]%andb_prop H3].
  apply negb_true_iff in H1, H2, H3. now repeat split.
Qed.

(** X2: [clean_text] is idempotent: cleaning a text that is already
    clean returns it unchanged. *)
Theorem X2_clean_text_idempotent (text : option string) :
  Text.clean_text (Some (Text.clean_text text)) = Text.clean_text text.
Proof.
  destruct (CleanFacts.clean_text_words text) as (ws & Hws & ->).
  now apply CleanFacts.clean_text_of_words.
Qed.

(* ================================================================== *)
(** * More on the search: which rows are returned *)

Section SearchMore.
Context `{Libraries}.

Lemma apply_price_range_In price_range rows out :
  apply_price_range price_range rows = Ok out ->
  forall x, In x out <-> In x rows /\ in_price_range price_range (snd x).
Proof.
  unfold apply_price_range, in_price_range. intros Hp x.
  destruct price_range as [[|lo [|hi [|? ?]]]|]; try discriminate;
    injection Hp as <-; try tauto.
  rewrite filter_In, andb_true_iff, !Rleb_spec. tauto.
Qed.

Lemma apply_brand_filter_In brand_filter rows out :
  apply_brand_filter brand_filter rows = Ok out ->
  forall x, In x out <-> In x rows /\ brand_matches brand_filter (snd x).
Proof.
  unfold apply_brand_filter, brand_matches. intros Hb x.
  destruct brand_filter as [b|]; [|injection Hb as <-; tauto].
  destruct (b =? "")%string eqn:E1.
  { injection Hb as <-. apply String.eqb_eq in E1. tauto. }
  destruct (Text.lower b =? "all")%string eqn:E2.
  { injection Hb as <-. apply String.eqb_eq in E2. tauto. }
  apply String.eqb_neq in E1, E2. simpl in Hb.
  destruct (re_search (Text.lower b)) as [found|]; [|discriminate].
  injection Hb as <-. rewrite filter_In. split.
  - intros [Hx Hf]. split; [exact Hx|]. right. right. now exists found.
  - intros [Hx [Hb | [Hb | (found' & [= <-] & Hf)]]]; try contradiction.
    now split.
Qed.

Lemma slice_stop_map {A B : Type} (f : A -> B) n l :
  slice_stop n (map f l) = map f (slice_stop n l).
Proof. destruct n; [apply slice_to_map | reflexivity]. Qed.

Lemma indexed_length {A : Type} (l : list A) :
  List.length (indexed l) = List.length l.
Proof. unfold indexed. rewrite length_combine, length_seq. lia. Qed.

(** The ranking behind a result: [full] holds exactly the candidates
    that pass both filters and have a positive similarity. *)
Lemma search_trace_stop st query skin_concerns price_range brand_filter
      (top_n : stop) results :
  get_product_recommendations st query skin_concerns price_range
                              brand_filter top_n = Ok results ->
  exists full,
    results = map record_of (slice_stop top_n full)
    /\ StronglySorted (ranks_before composite_of earlier_row) full
    /\ (forall c, In c full <->
                  candidate st query skin_concerns c /\ 0 < snd c
                  /\ in_price_range price_range (snd (fst c))
                  /\ brand_matches brand_filter (snd (fst c)))
    /\ (forall products, products_df st = Some products ->
                         (List.length full <= List.length products)%nat).
Proof.
  unfold get_product_recommendations. intros Hg.
  assert (Hslice : forall A, slice_stop top_n (@nil A) = []).
  { intros A. destruct top_n as [n|]; [|reflexivity].
    unfold slice_stop, slice_to. destruct (0 <=? n)%Z; apply firstn_nil. }
  destruct (products_df st) as [products|] eqn:Ep.
  2:{ injection Hg as <-. exists []. rewrite Hslice.
      split; [reflexivity|]. split; [constructor|]. split.
      - intros c. split; [intros []|].
        intros [[(ps & Hps & _) _] _]. congruence.
      - intros ps; discriminate. }
  unfold bind in Hg.
  destruct (apply_price_range price_range (indexed products))
    as [by_price|] eqn:Eprice; [|discriminate].
  destruct (apply_brand_filter brand_filter by_price)
    as [filtered|] eqn:Ebrand; [|discriminate].
  pose proof (apply_price_range_In _ _ _ Eprice) as Hprice.
  pose proof (apply_brand_filter_In _ _ _ Ebrand) as Hbrand.
  assert (Hpass : forall c,
             candidate st query skin_concerns c ->
             in_price_range price_range (snd (fst c)) ->
             brand_matches brand_filter (snd (fst c)) ->
             In (fst c) filtered).
  { intros c [(ps & Hps & Hnth) _] Hpr Hbr.
    rewrite Ep in Hps. injection Hps as <-.
    apply Hbrand. split; [|exact Hbr]. apply Hprice. split; [|exact Hpr].
    rewrite (surjective_pairing (fst c)). now apply nth_error_indexed. }
  destruct filtered as [|row0 rows0] eqn:Ef.
  { injection Hg as <-. exists []. rewrite Hslice.
    split; [reflexivity|]. split; [constructor|]. split.
    - intros c. split; [intros []|].
      intros (Hc & _ & Hpr & Hbr). exact (Hpass c Hc Hpr Hbr).
    - intros ps _. simpl. lia. }
  rewrite <- Ef in *.
  destruct (tfidf_vectorizer st) as [vectorizer|] eqn:Ev; [|discriminate].
  destruct (product_features_matrix st) as [matrix|] eqn:Em; [|discriminate].
  match type of Hg with
  | context [similarity_scores ?qv matrix filtered] =>
      destruct (similarity_scores qv matrix filtered) as [scored|] eqn:Es;
        [|discriminate]
  end.
  injection Hg as <-.
  apply similarity_scores_spec in Es as [Hfst Hsim].
  rewrite Forall_forall in Hsim.
  exists (sort_desc composite_of (filter (fun c => Rltb 0 (snd c)) scored)).
  split; [|split; [|split]].
  - rewrite <- slice_stop_map. f_equal. unfold results_of.
    change (fun ips : nat * Product * R => make_result (snd (fst ips)) (snd ips))
      with record_of.
    now rewrite sort_desc_map.
  - apply sort_desc_stable, filter_sorted.
    apply (sorted_map_inv fst earlier). rewrite Hfst.
    apply apply_brand_filter_filter in Ebrand as [f2 ->].
    apply apply_price_range_filter in Eprice as [f1 ->].
    apply filter_sorted, filter_sorted, indexed_sorted.
  - intros c. rewrite sort_desc_In, filter_In. split.
    + intros [Hc Hpos].
      assert (Hin : In (fst c) filtered)
        by (rewrite <- Hfst; now apply in_map).
      apply Hbrand in Hin as [Hin Hbr]. apply Hprice in Hin as [Hin Hpr].
      destruct (Hsim c Hc) as (v & Hv & Hs).
      split; [|split; [|now split]].
      * split.
        -- exists products. split; [exact Ep|]. apply indexed_In.
           now rewrite (surjective_pairing (fst c)) in Hin.
        -- now exists vectorizer, matrix, v.
      * unfold Rltb in Hpos. now destruct (Rlt_dec 0 (snd c)).
    + intros (Hc & Hpos & Hpr & Hbr).
      pose proof (Hpass c Hc Hpr Hbr) as Hin.
      rewrite <- Hfst in Hin. apply in_map_iff in Hin as (c' & Hfc & Hc').
      destruct (Hsim c' Hc') as (v' & Hv' & Hs').
      destruct Hc as [_ (vz & m & v & Hvz & Hm & Hv & Hs)].
      rewrite Ev in Hvz. injection Hvz as <-.
      rewrite Em in Hm. injection Hm as <-.
      rewrite Hfc, Hv in Hv'. injection Hv' as <-.
      assert (c' = c) as ->.
      { rewrite (surjective_pairing c'), (surjective_pairing c).
        now rewrite Hfc, Hs', Hs. }
      split; [exact Hc'|]. now apply Rltb_true.
  - intros ps [= <-]. rewrite sort_desc_length.
    etransitivity; [apply filter_length_le|].
    rewrite <- (length_map fst), Hfst.
    apply apply_brand_filter_filter in Ebrand as [f2 ->].
    apply apply_price_range_filter in Eprice as [f1 ->].
    etransitivity; [apply filter_length_le|].
    etransitivity; [apply filter_length_le|].
    now rewrite indexed_length.
Qed.

Lemma search_trace_full st query skin_concerns price_range brand_filter
      (top_n : Z) results :
  get_product_recommendations st query skin_concerns price_range
                              brand_filter top_n = Ok results ->
  exists full,
    results = map record_of (slice_to top_n full)
    /\ StronglySorted (ranks_before composite_of earlier_row) full
    /\ (forall c, In c full <->
                  candidate st query skin_concerns c /\ 0 < snd c
                  /\ in_price_range price_range (snd (fst c))
                  /\ brand_matches brand_filter (snd (fst c)))
    /\ (forall products, products_df st = Some products ->
                         (List.length full <= List.length products)%nat).
Proof. exact (search_trace_stop _ _ _ _ _ (Int top_n) _). Qed.
End SearchMore.

Module MoreExampleFacts.
Import Example.

(** Price range 0 to 35 and brand "A": of the two matches only the serum
    (30) is in the range; the gel is in the range but is not brand A and
    does not match. *)
Lemma search_filtered :
  get_product_recommendations loaded "Hydrating!" [] (Some [0; 35])
                              (Some "A") 12
  = Ok [make_result serum_row 1].
Proof.
  run_reals.
  rewrite !(Rleb_true 0 _) by lra.
  rewrite (Rleb_true 30 35), (Rleb_true 15 35), (Rleb_false 40 35) by lra.
  run_reals.
  rewrite !(Rltb_true 0 1) by lra.
  run_reals.
  rewrite (Rltb_true 0 30) by lra.
  reflexivity.
Qed.

(** The handler on a request that has a query only. *)
Lemma handler_serum :
  search_products MoreExamples.serum_request loaded
  = (Ok200 "serum" 1 [make_result serum_row 1], loaded).
Proof.
  unfold search_products, MoreExamples.serum_request.
  cbn [req_query req_skin_concerns req_limit req_price_range req_brand
       fillna].
  change ("serum" =? "")%string with false. cbv iota.
  now rewrite ExampleFacts.search_serum.
Qed.
End MoreExampleFacts.

Section SearchExtras.
Context `{Libraries}.

Lemma enhanced_query_clean query skin_concerns :
  enhanced_query (Text.clean_text (Some query))
                 (map (fun c => Text.clean_text (Some c)) skin_concerns)
  = enhanced_query query skin_concerns.
Proof.
  unfold enhanced_query.
  assert (Hidem : forall t, Text.clean_text (Some (Text.clean_text t))
                            = Text.clean_text t).
  { intros t. destruct (CleanFacts.clean_text_words t) as (ws & Hws & ->).
    now apply CleanFacts.clean_text_of_words. }
  rewrite Hidem. destruct skin_concerns as [|c r]; [reflexivity|].
  cbn [map]. rewrite Hidem, map_map.
  do 4 f_equal. apply map_ext. intros a. apply Hidem.
Qed.

Lemma candidate_functional st query skin_concerns c1 c2 :
  candidate st query skin_concerns c1 ->
  candidate st query skin_concerns c2 ->
  fst (fst c1) = fst (fst c2) -> c1 = c2.
Proof.
  destruct c1 as [[i p1] s1], c2 as [[j p2] s2]. simpl.
  intros [(ps1 & Hps1 & Hn1) (vz1 & m1 & v1 & Hvz1 & Hm1 & Hv1 & Hs1)]
         [(ps2 & Hps2 & Hn2) (vz2 & m2 & v2 & Hvz2 & Hm2 & Hv2 & Hs2)] <-.
  simpl in *.
  rewrite Hps1 in Hps2. injection Hps2 as <-.
  rewrite Hn1 in Hn2. injection Hn2 as <-.
  rewrite Hvz1 in Hvz2. injection Hvz2 as <-.
  rewrite Hm1 in Hm2. injection Hm2 as <-.
  rewrite Hv1 in Hv2. injection Hv2 as <-.
  now rewrite Hs1, Hs2.
Qed.

Lemma ranked_rows_distinct st query skin_concerns ranked :
  StronglySorted (ranks_before composite_of earlier_row) ranked ->
  Forall (candidate st query skin_concerns) ranked ->
  NoDup (map (fun c => fst (fst c)) ranked).
Proof.
  induction 1 as [|a l Hl IH Ha]; intros Hc; simpl; constructor.
  - apply Forall_cons_iff in Hc as [Hca Hcl].
    intros (b & Hidx & Hb)%in_map_iff.
    rewrite Forall_forall in Ha, Hcl.
    assert (b = a) as ->
      by (apply (candidate_functional st query skin_concerns); auto).
    destruct (Ha a Hb) as [Hlt | [_ Hlt]];
      [lra | unfold earlier_row, earlier in Hlt; lia].
  - apply IH. now apply Forall_cons_iff in Hc as [_ Hcl].
Qed.

Lemma apply_brand_filter_total brand_filter rows :
  apply_brand_filter brand_filter [] = Ok [] ->
  exists out, apply_brand_filter brand_filter rows = Ok out.
Proof.
  unfold apply_brand_filter.
  destruct brand_filter as [b|]; [|eauto].
  destruct ((b =? "")%string || (Text.lower b =? "all")%string); [eauto|].
  destruct (re_search (Text.lower b)); [eauto | discriminate].
Qed.

Lemma apply_price_range_total price_range rows :
  (forall bounds, price_range = Some bounds ->
                  List.length bounds = 0%nat \/ List.length bounds = 2%nat) ->
  exists out, apply_price_range price_range rows = Ok out.
Proof.
  unfold apply_price_range. intros Hwf.
  destruct price_range as [[|lo [|hi [|z more]]]|]; eauto;
    destruct (Hwf _ eq_refl); discriminate.
Qed.

Lemma mapM_total {A B : Type} (f : A -> result B) l :
  (forall a, In a l -> exists b, f a = Ok b) -> exists out, mapM f l = Ok out.
Proof.
  induction l as [|a r IH]; intros Hf; simpl; [eauto|].
  destruct (Hf a (or_introl eq_refl)) as [b ->].
  destruct IH as [bs ->]; [intros x Hx; apply Hf; now right|].
  simpl. eauto.
Qed.
End SearchExtras.

(** X3: the search sees the query and the skin concerns only through
    [clean_text]: a query and concerns that are already cleaned give the
    same answer as the raw ones, so case, punctuation and spacing of the
    request text never change the result. *)
Theorem X3_search_ignores_text_form `{Libraries} (st : State)
        (query : string) (skin_concerns : list string)
        (price_range : option (list R)) (brand_filter : option string)
        (top_n : Z) :
  get_product_recommendations st (Text.clean_text (Some query))
    (map (fun c => Text.clean_text (Some c)) skin_concerns)
    price_range brand_filter top_n
  = get_product_recommendations st query skin_concerns price_range
                                brand_filter top_n.
Proof.
  unfold get_product_recommendations. now rewrite enhanced_query_clean.
Qed.

(** X4: every record returned is the record of a catalog row that passes
    both filters: its price is inside the requested price range and its
    brand passes the brand filter.  On the record: a price that is shown
    is inside the range, and a record without price (price unknown, not
    positive) can only be returned when the lower bound is not positive. *)
Theorem X4_results_pass_filters `{Libraries} (st : State)
        (query : string) (skin_concerns : list string)
        (price_range : option (list R)) (brand_filter : option string)
        (top_n : Z) (results : list Recommendation) :
  get_product_recommendations st query skin_concerns price_range
                              brand_filter top_n = Ok results ->
  forall r, In r results ->
  (exists i p s,
      candidate st query skin_concerns (i, p, s)
      /\ r = make_result p s
      /\ in_price_range price_range p
      /\ brand_matches brand_filter p)
  /\ (forall lo hi, price_range = Some [lo; hi] ->
                    match r_price_usd r with
                    | Some x => lo <= x <= hi
                    | None => lo <= 0
                    end).
Proof.
  intros (full & -> & _ & Hfull & _)%search_trace_full r Hr.
  apply in_map_iff in Hr as ([[i p] s] & <- & Hin).
  destruct (slice_to_firstn top_n full) as (m & Hm & _).
  rewrite Hm in Hin. apply In_firstn, Hfull in Hin as (Hc & _ & Hpr & Hbr).
  simpl in *. split; [now exists i, p, s|].
  intros lo hi ->. simpl in Hpr. unfold Rltb.
  destruct (Rlt_dec 0 (price_usd p)); [exact Hpr | lra].
Qed.

(** X4 on the example: price range 0 to 35, brand "A". *)
Lemma X4_results_pass_filters_witness :
  (exists i p s,
      candidate Example.loaded "Hydrating!" [] (i, p, s)
      /\ make_result Example.serum_row 1 = make_result p s
      /\ in_price_range (Some [0; 35]) p
      /\ brand_matches (Some "A") p)
  /\ (forall lo hi, Some [0; 35] = Some [lo; hi] ->
                    match r_price_usd (make_result Example.serum_row 1) with
                    | Some x => lo <= x <= hi
                    | None => lo <= 0
                    end).
Proof.
  apply (X4_results_pass_filters Example.loaded "Hydrating!" [] (Some [0; 35])
           (Some "A") 12 _ MoreExampleFacts.search_filtered).
  now left.
Defined.

(** X5: the truncation keeps the best.  A catalog row that passes both
    filters and has a positive similarity is either returned or ranked
    after every returned row (lower composite score, or the same score
    and a later catalog position); and when the limit is at least the size
    of the catalog, every such row is returned. *)
Theorem X5_truncation_keeps_the_best `{Libraries} (st : State)
        (query : string) (skin_concerns : list string)
        (price_range : option (list R)) (brand_filter : option string)
        (top_n : Z) (results : list Recommendation) :
  get_product_recommendations st query skin_concerns price_range
                              brand_filter top_n = Ok results ->
  exists ranked,
    results = map record_of ranked
    /\ forall c,
         candidate st query skin_concerns c -> 0 < snd c ->
         in_price_range price_range (snd (fst c)) ->
         brand_matches brand_filter (snd (fst c)) ->
         (In c ranked
          \/ forall a, In a ranked ->
                       composite_of c < composite_of a
                       \/ (composite_of a = composite_of c
                           /\ (fst (fst a) < fst (fst c))%nat))
         /\ (forall products,
                products_df st = Some products ->
                (Z.of_nat (List.length products) <= top_n)%Z ->
                In c ranked).
Proof.
  intros (full & -> & Hs & Hfull & Hlen)%search_trace_full.
  destruct (slice_to_firstn top_n full) as (m & Hm & Hn).
  exists (firstn m full). split; [now rewrite Hm|].
  intros c Hc Hpos Hpr Hbr.
  assert (Hin : In c full) by (apply Hfull; auto).
  split.
  - rewrite <- (firstn_skipn m full) in Hin, Hs.
    apply in_app_or in Hin as [Hin | Hin]; [now left | right].
    intros a Ha. exact (sorted_app_inv _ _ _ Hs a c Ha Hin).
  - intros products Hdf Hbig. specialize (Hlen _ Hdf).
    rewrite (Hn ltac:(lia)), firstn_all2 by lia. exact Hin.
Qed.

(** X5 on the example search for "hydrating". *)
Lemma X5_truncation_keeps_the_best_witness :
  exists ranked,
    [make_result Example.serum_row 1; make_result Example.cream_row 1]
    = map record_of ranked
    /\ forall c,
         candidate Example.loaded "hydrating" [] c -> 0 < snd c ->
         in_price_range None (snd (fst c)) ->
         brand_matches None (snd (fst c)) ->
         (In c ranked
          \/ forall a, In a ranked ->
                       composite_of c < composite_of a
                       \/ (composite_of a = composite_of c
                           /\ (fst (fst a) < fst (fst c))%nat))
         /\ (forall products,
                products_df Example.loaded = Some products ->
                (Z.of_nat (List.length products) <= 12)%Z ->
                In c ranked).
Proof.
  exact (X5_truncation_keeps_the_best Example.loaded "hydrating" [] None None
           12 _ ExampleFacts.search_hydrating).
Defined.

(** X6: no catalog row is returned twice, and the result is never longer
    than the catalog. *)
Theorem X6_each_row_at_most_once `{Libraries} (st : State)
        (query : string) (skin_concerns : list string)
        (price_range : option (list R)) (brand_filter : option string)
        (top_n : Z) (results : list Recommendation) :
  get_product_recommendations st query skin_concerns price_range
                              brand_filter top_n = Ok results ->
  exists ranked,
    results = map record_of ranked
    /\ Forall (candidate st query skin_concerns) ranked
    /\ NoDup (map (fun c => fst (fst c)) ranked)
    /\ forall products, products_df st = Some products ->
                        (List.length results <= List.length products)%nat.
Proof.
  intros Hg.
  destruct (search_ranked _ _ _ _ _ _ _ Hg) as (ranked & -> & Hc & _ & Hs).
  exists ranked. split; [reflexivity|]. split; [exact Hc|].
  split; [now apply (ranked_rows_distinct st query skin_concerns)|].
  intros products Hdf.
  apply search_trace_full in Hg as (full & Hres & _ & _ & Hlen).
  rewrite Hres, length_map.
  destruct (slice_to_firstn top_n full) as (m & -> & _).
  rewrite length_firstn. specialize (Hlen _ Hdf). lia.
Qed.

(** X6 on the example search for "hydrating". *)
Lemma X6_each_row_at_most_once_witness :
  exists ranked,
    [make_result Example.serum_row 1; make_result Example.cream_row 1]
    = map record_of ranked
    /\ Forall (candidate Example.loaded "hydrating" []) ranked
    /\ NoDup (map (fun c => fst (fst c)) ranked)
    /\ forall products,
         products_df Example.loaded = Some products ->
         (List.length [make_result Example.serum_row 1;
                       make_result Example.cream_row 1]
          <= List.length products)%nat.
Proof.
  exact (X6_each_row_at_most_once Example.loaded "hydrating" [] None None 12
           _ ExampleFacts.search_hydrating).
Defined.

(** X7: on a catalog that was loaded, a search whose filters are well
    formed (the price range absent, empty or of two bounds; the brand
    filter absent or a pattern that compiles) always returns a list: the
    index has a row for every catalog row, so nothing else can raise. *)
Theorem X7_loaded_search_returns `{Libraries}
        (rows : list CsvProduct) (files : list (list Review)) (st : State)
        (query : string) (skin_concerns : list string)
        (price_range : option (list R)) (brand_filter : option string)
        (top_n : Z) :
  load_and_preprocess_data (Some rows) files = Some st ->
  filters_well_formed price_range brand_filter ->
  exists results,
    get_product_recommendations st query skin_concerns price_range
                                brand_filter top_n = Ok results.
Proof.
  intros (products & vz & Hdf & _ & Hvz & Hm)%load_aligned [Hpr Hbr].
  unfold get_product_recommendations. rewrite Hdf, Hvz, Hm.
  destruct (apply_price_range_total price_range (indexed products) Hpr)
    as [by_price Eprice].
  destruct (apply_brand_filter_total brand_filter by_price Hbr)
    as [filtered Ebrand].
  rewrite Eprice. simpl. rewrite Ebrand. simpl.
  destruct filtered as [|row0 rows0] eqn:Ef; [eauto|]. rewrite <- Ef in *.
  match goal with
  | |- context [similarity_scores ?qv ?m filtered] =>
      destruct (mapM_total
                  (fun ip => match nth_error m (fst ip) with
                             | Some v => Ok (ip, cosine_similarity qv v)
                             | None => Raise IndexError
                             end) filtered) as [scored Es]
  end.
  - intros [i p] Hip. simpl.
    apply apply_brand_filter_filter in Ebrand as [f2 ->].
    apply apply_price_range_filter in Eprice as [f1 ->].
    apply filter_In in Hip as [Hip _]. apply filter_In in Hip as [Hip _].
    apply indexed_In in Hip.
    destruct (nth_error (map _ products) i) as [v|] eqn:Ev; [eauto|].
    apply nth_error_None in Ev. rewrite length_map in Ev.
    assert (i < List.length products)%nat
      by (apply nth_error_Some; congruence).
    lia.
  - unfold similarity_scores. rewrite Es. simpl. eauto.
Qed.

(** X7 on the example catalog, with a price range and a brand. *)
Lemma X7_loaded_search_returns_witness :
  exists results,
    get_product_recommendations Example.loaded "gel" ["shine"]
                                (Some [10; 20]) (Some "b") (-3) = Ok results.
Proof.
  apply (X7_loaded_search_returns Example.product_info Example.review_files);
    [exact ExampleFacts.load_example|].
  split; [|reflexivity].
  intros bounds [= <-]. now right.
Defined.

(** X8: when no catalog row passes both filters the search returns the
    empty list without consulting the index: it does so even when the
    vectorizer and the feature matrix are not there. *)
Theorem X8_no_row_passes_returns_empty `{Libraries} (st : State)
        (products : list Product)
        (query : string) (skin_concerns : list string)
        (price_range : option (list R)) (brand_filter : option string)
        (top_n : Z) :
  products_df st = Some products ->
  filters_well_formed price_range brand_filter ->
  (forall p, In p products ->
             ~ (in_price_range price_range p
                /\ brand_matches brand_filter p)) ->
  get_product_recommendations st query skin_concerns price_range
                              brand_filter top_n = Ok [].
Proof.
  intros Hdf [Hpr Hbr] Hnone.
  unfold get_product_recommendations. rewrite Hdf.
  destruct (apply_price_range_total price_range (indexed products) Hpr)
    as [by_price Eprice].
  destruct (apply_brand_filter_total brand_filter by_price Hbr)
    as [filtered Ebrand].
  rewrite Eprice. simpl. rewrite Ebrand. simpl.
  destruct filtered as [|[i p] rows0]; [reflexivity|]. exfalso.
  assert (Hin : In (i, p) ((i, p) :: rows0)) by now left.
  apply (apply_brand_filter_In _ _ _ Ebrand) in Hin as [Hin Hb].
  apply (apply_price_range_In _ _ _ Eprice) in Hin as [Hin Hp].
  apply indexed_In, nth_error_In in Hin.
  exact (Hnone p Hin (conj Hp Hb)).
Qed.

(** X8 on the example catalog without index: nothing costs between 1000
    and 2000. *)
Lemma X8_no_row_passes_returns_empty_witness :
  get_product_recommendations MoreExamples.catalog_only "hydrating" []
                              (Some [1000; 2000]) None 12 = Ok [].
Proof.
  apply (X8_no_row_passes_returns_empty MoreExamples.catalog_only
           Example.catalog); [reflexivity | |].
  - split; [|reflexivity]. intros bounds [= <-]. now right.
  - intros p Hp [Hprice _]. simpl in Hprice.
    repeat (destruct Hp as [<- | Hp]; [simpl in Hprice; lra|]).
    destruct Hp.
Defined.

(** The guard of the search looks at the catalog only: with a catalog
    but no vectorizer, a search whose filters let a row through raises
    AttributeError. *)
Lemma index_not_built_raises `{Libraries} (st : State)
      (products : list Product) (query : string)
      (skin_concerns : list string) (price_range : option (list R))
      (brand_filter : option string) (top_n : stop) (p : Product) :
  products_df st = Some products ->
  tfidf_vectorizer st = None ->
  filters_well_formed price_range brand_filter ->
  In p products ->
  in_price_range price_range p -> brand_matches brand_filter p ->
  get_product_recommendations st query skin_concerns price_range
                              brand_filter top_n = Raise AttributeError.
Proof.
  intros Hdf Hvz [Hpr Hbr] Hp Hprice Hbrand.
  unfold get_product_recommendations. rewrite Hdf, Hvz.
  destruct (apply_price_range_total price_range (indexed products) Hpr)
    as [by_price Eprice].
  destruct (apply_brand_filter_total brand_filter by_price Hbr)
    as [filtered Ebrand].
  rewrite Eprice. simpl. rewrite Ebrand. simpl.
  destruct filtered as [|row0 rows0] eqn:Ef; [|reflexivity]. exfalso.
  apply In_nth_error in Hp as [i Hi]. apply nth_error_indexed in Hi.
  assert (Hin : In (i, p) []); [|destruct Hin].
  apply (apply_brand_filter_In _ _ _ Ebrand). split; [|exact Hbrand].
  apply (apply_price_range_In _ _ _ Eprice). now split.
Qed.

(** A null limit on the example: both matches are returned. *)
Lemma handler_null_limit :
  search_products
    {| req_query := Some "hydrating"; req_skin_concerns := None;
       req_price_range := None; req_brand := None;
       req_limit := Some NoStop |} Example.loaded
  = (Ok200 "hydrating" 2
       [make_result Example.serum_row 1; make_result Example.cream_row 1],
     Example.loaded).
Proof.
  run_reals.
  rewrite !(Rltb_true 0 1) by lra. rewrite !(Rltb_false 0 0) by lra.
  run_reals.
  rewrite (Rltb_true 0 30), (Rltb_true 0 40) by lra.
  match goal with
  | |- context [Rle_dec ?a ?b] => destruct (Rle_dec a b) as [Hle | Hgt]
  end; [reflexivity|].
  exfalso. apply Hgt. lra.
Qed.

(** X9: an answer 200 of the search handler echoes the query of the
    request and reports as [total_results] the number of products it
    carries.  That number is at most 12 when the request has no limit, and
    at most the limit when the request has an int limit that is not
    negative; when the limit of the request is null nothing is cut: every
    catalog row that passes the filters and has a positive similarity is
    in the answer. *)
Theorem X9_handler_counts_and_limit `{Libraries} (req : SearchRequest)
        (st : State) (query : string) (total : nat)
        (products : list Recommendation) :
  fst (search_products req st) = Ok200 query total products ->
  total = List.length products
  /\ req_query req = Some query
  /\ (req_limit req = None -> (List.length products <= 12)%nat)
  /\ (forall n : Z, req_limit req = Some (Int n) -> (0 <= n)%Z ->
                    (List.length products <= Z.to_nat n)%nat)
  /\ (req_limit req = Some NoStop ->
      forall c,
        candidate st query (fillna (req_skin_concerns req) []) c ->
        0 < snd c ->
        in_price_range (req_price_range req) (snd (fst c)) ->
        brand_matches (req_brand req) (snd (fst c)) ->
        In (record_of c) products).
Proof.
  unfold search_products.
  destruct (req_query req) as [q|]; simpl; [|discriminate].
  destruct (q =? "")%string; [discriminate|].
  destruct (get_product_recommendations _ _ _ _ _ _) as [rs|] eqn:Eg;
    [|discriminate].
  simpl. intros [= <- <- <-]. split; [reflexivity|]. split; [reflexivity|].
  apply search_trace_stop in Eg as (full & -> & _ & Hfull & _).
  rewrite length_map. split; [|split].
  - intros ->. simpl. apply (firstn_le_length 12).
  - intros n -> Hn. simpl.
    destruct (slice_to_firstn n full) as (m & -> & Hm).
    rewrite (Hm Hn). apply firstn_le_length.
  - intros -> c Hc Hpos Hpr Hbr. simpl. apply in_map, Hfull. auto.
Qed.

(** X9 on the example: a request for "serum" without limit. *)
Lemma X9_handler_counts_and_limit_witness :
  1%nat = List.length [make_result Example.serum_row 1]
  /\ req_query MoreExamples.serum_request = Some "serum"
  /\ (req_limit MoreExamples.serum_request = None ->
      (List.length [make_result Example.serum_row 1] <= 12)%nat).
Proof.
  destruct (X9_handler_counts_and_limit MoreExamples.serum_request
              Example.loaded "serum" 1 [make_result Example.serum_row 1])
    as (H1 & H2 & H3 & _).
  - now rewrite MoreExampleFacts.handler_serum.
  - now repeat split.
Defined.

(* ================================================================== *)
(** * More on the build *)

Lemma Rsum_bounds lo hi xs :
  Forall (fun x => lo <= x <= hi) xs ->
  lo * INR (List.length xs) <= Rsum xs <= hi * INR (List.length xs).
Proof.
  induction 1 as [|x r Hx _ IH]; [simpl; lra|].
  change (List.length (x :: r)) with (S (List.length r)).
  rewrite S_INR. simpl. lra.
Qed.

Lemma div_bounds lo hi t d :
  0 < d -> lo * d <= t <= hi * d -> lo <= t / d <= hi.
Proof.
  intros Hd Ht. unfold Rdiv.
  split; apply Rmult_le_reg_r with d; try exact Hd;
    rewrite Rmult_assoc, Rinv_l, Rmult_1_r by lra; lra.
Qed.

Lemma mean_bounds lo hi xs m :
  Forall (fun x => lo <= x <= hi) xs -> mean xs = Some m -> lo <= m <= hi.
Proof.
  intros Hxs. destruct xs as [|x r]; [discriminate|].
  assert (Hpos : 0 < INR (List.length (x :: r)))
    by (apply lt_0_INR; simpl; lia).
  pose proof (Rsum_bounds lo hi _ Hxs) as Hb.
  unfold mean. intros [= <-].
  apply div_bounds; [exact Hpos | exact Hb].
Qed.

Lemma ratings_of_on_scale rs pid :
  (forall rv x, In rv rs -> review_rating rv = Some x -> 0 <= x <= 5) ->
  Forall (fun x => 0 <= x <= 5) (ratings_of (group_of rs pid)).
Proof.
  intros Hrs. apply Forall_forall. intros x Hx.
  unfold ratings_of in Hx. apply in_flat_map in Hx as (rv & Hrv & Hx).
  apply filter_In in Hrv as [Hrv _].
  destruct (review_rating rv) as [y|] eqn:Ey; [|destruct Hx].
  destruct Hx as [<- | []]. now apply (Hrs rv).
Qed.

Lemma get_sentiment_bounds `{Libraries} text :
  (forall t, -1 <= polarity t <= 1) -> -1 <= get_sentiment text <= 1.
Proof.
  intros Hp. unfold get_sentiment.
  destruct text as [[|c s]|]; try lra. apply Hp.
Qed.

Lemma build_product_ranges `{Libraries} reviews sampled c :
  (forall x, csv_rating c = Some x -> 0 <= x <= 5) ->
  (forall n, csv_reviews c = Some n -> (0 <= n)%Z) ->
  (forall rv x, In rv reviews -> review_rating rv = Some x -> 0 <= x <= 5) ->
  (forall t, -1 <= polarity t <= 1) ->
  0 <= final_rating (build_product reviews sampled c) <= 5
  /\ (0 <= final_review_count (build_product reviews sampled c))%Z
  /\ -1 <= avg_sentiment (build_product reviews sampled c) <= 1.
Proof.
  intros Hr Hn Hrv Hpol.
  assert (Hr0 : 0 <= fillna (csv_rating c) 0 <= 5)
    by (destruct (csv_rating c); simpl; [now apply Hr | lra]).
  assert (Hn0 : (0 <= fillna (csv_reviews c) 0)%Z)
    by (destruct (csv_reviews c); simpl; [now apply Hn | lia]).
  unfold build_product.
  cbn [final_rating final_review_count avg_sentiment].
  split; [|split].
  - destruct (read_cell (csv_product_id c)) as [pid|]; [|exact Hr0].
    unfold merge_left, review_stats.
    pose proof (ratings_of_on_scale reviews pid Hrv) as Hg.
    destruct (group_of reviews pid) as [|rv g]; [exact Hr0|].
    destruct (mean (ratings_of (rv :: g))) as [m|] eqn:Em; [|exact Hr0].
    exact (mean_bounds _ _ _ _ Hg Em).
  - destruct (read_cell (csv_product_id c)) as [pid|]; [|exact Hn0].
    unfold merge_left, review_stats.
    destruct (group_of reviews pid) as [|rv g]; [exact Hn0|].
    simpl. lia.
  - destruct (read_cell (csv_product_id c)) as [pid|]; [|simpl; lra].
    unfold merge_left, product_sentiment.
    destruct (group_of sampled pid) as [|rv g]; [simpl; lra|].
    destruct (mean (map _ (rv :: g))) as [m|] eqn:Em; [|simpl; lra].
    refine (mean_bounds _ _ _ _ _ Em).
    apply Forall_forall. intros x (r0 & <- & _)%in_map_iff.
    now apply get_sentiment_bounds.
Qed.

(** X10: after a load from files whose ratings are on the scale from 0 to
    5 and whose listed review counts are not negative, with a sentiment
    library whose polarity is between -1 and 1, every product of the
    catalog has [0 <= final_rating <= 5], [final_review_count >= 0] and
    [-1 <= avg_sentiment <= 1]. *)
Theorem X10_catalog_ranges `{Libraries}
        (rows : list CsvProduct) (files : list (list Review)) (st : State)
        (products : list Product) :
  load_and_preprocess_data (Some rows) files = Some st ->
  ratings_on_scale rows (List.concat files) ->
  (forall t, -1 <= polarity t <= 1) ->
  products_df st = Some products ->
  forall p, In p products ->
            0 <= final_rating p <= 5
            /\ (0 <= final_review_count p)%Z
            /\ -1 <= avg_sentiment p <= 1.
Proof.
  unfold load_and_preprocess_data. intros Hload (Hrat & Hcnt & Hrev) Hpol.
  destruct files as [|f0 files']; [discriminate|].
  destruct (fit _); [|discriminate].
  injection Hload as <-. simpl. intros [= <-] p (c & <- & Hc)%in_map_iff.
  apply filter_In in Hc as [Hc _].
  apply build_product_ranges; auto.
  - intros x. now apply Hrat.
  - intros n. now apply Hcnt.
Qed.

Module ScaleFacts.
Import Example.

Lemma example_on_scale :
  ratings_on_scale product_info (List.concat review_files).
Proof.
  unfold ratings_on_scale, product_info, review_files. simpl.
  split; [|split]; intros c x Hin Hx;
    repeat (destruct Hin as [<- | Hin];
            [simpl in Hx; injection Hx as <-; lra || lia|]);
    destruct Hin.
Qed.

Lemma toy_polarity_bounds : forall t, -1 <= polarity t <= 1.
Proof. intros t. simpl. lra. Qed.
End ScaleFacts.

(** X10 on the serum of the example catalog. *)
Lemma X10_catalog_ranges_witness :
  0 <= final_rating Example.serum_row <= 5
  /\ (0 <= final_review_count Example.serum_row)%Z
  /\ -1 <= avg_sentiment Example.serum_row <= 1.
Proof.
  apply (X10_catalog_ranges Example.product_info Example.review_files
           Example.loaded Example.catalog ExampleFacts.load_example
           ScaleFacts.example_on_scale ScaleFacts.toy_polarity_bounds
           eq_refl).
  now left.
Defined.

(** X12: the fallback of the review statistics, for a product with an
    id.  Without any review row of that id the listed rating and the
    listed review count are used (0 when they are missing).  With review
    rows, [final_review_count] is the number of those rows that carry a
    rating, even when that number is 0, and [final_rating] is the mean of
    their ratings, or the listed rating (0 when missing) when none of them
    carries a rating. *)
Theorem X12_review_statistics_fallback `{Libraries}
        (reviews sampled : list Review) (c : CsvProduct) (pid : string) :
  read_cell (csv_product_id c) = Some pid ->
  let p := build_product reviews sampled c in
  let rated := ratings_of (group_of reviews pid) in
  (group_of reviews pid = [] ->
   final_rating p = fillna (csv_rating c) 0
   /\ final_review_count p = fillna (csv_reviews c) 0%Z)
  /\ (group_of reviews pid <> [] ->
      final_review_count p = Z.of_nat (List.length rated)
      /\ (rated = [] -> final_rating p = fillna (csv_rating c) 0)
      /\ (rated <> [] ->
          final_rating p = Rsum rated / INR (List.length rated))).
Proof.
  intros Hpid p rated. subst p rated.
  unfold build_product. cbn [final_rating final_review_count].
  rewrite Hpid. unfold merge_left, review_stats.
  destruct (group_of reviews pid) as [|rv g] eqn:Eg.
  - split; [intros _; split; reflexivity | congruence].
  - split; [discriminate|]. intros _.
    split; [reflexivity|].
    destruct (ratings_of (rv :: g)) as [|x r]; split;
      solve [reflexivity | congruence | discriminate].
Qed.

(** X12 on the serum of the example, which has no review. *)
Lemma X12_review_statistics_fallback_witness :
  (group_of Example.reviews "P1" = [] ->
   final_rating Example.serum_row = fillna (csv_rating Example.serum) 0
   /\ final_review_count Example.serum_row
      = fillna (csv_reviews Example.serum) 0%Z)
  /\ (group_of Example.reviews "P1" <> [] ->
      final_review_count Example.serum_row
      = Z.of_nat (List.length (ratings_of (group_of Example.reviews "P1")))
      /\ (ratings_of (group_of Example.reviews "P1") = [] ->
          final_rating Example.serum_row = fillna (csv_rating Example.serum) 0)
      /\ (ratings_of (group_of Example.reviews "P1") <> [] ->
          final_rating Example.serum_row
          = Rsum (ratings_of (group_of Example.reviews "P1"))
            / INR (List.length
                     (ratings_of (group_of Example.reviews "P1"))))).
Proof.
  exact (X12_review_statistics_fallback Example.reviews Example.reviews
           Example.serum "P1" eq_refl).
Defined.




(* ================================================================== *)
(** * Excerpts *)

Lemma length_append (a b : string) :
  String.length (a ++ b) = (String.length a + String.length b)%nat.
Proof. induction a as [|c a IH]; simpl; [reflexivity | now rewrite IH]. Qed.

Lemma length_substring_0 n : forall s,
  String.length (substring 0 n s) = Nat.min n (String.length s).
Proof.
  induction n as [|n IH]; intros [|c s]; simpl; try reflexivity.
  now rewrite IH.
Qed.

Lemma substring_0_append n : forall s t,
  (n <= String.length s)%nat -> substring 0 n (s ++ t) = substring 0 n s.
Proof.
  induction n as [|n IH]; intros [|c s] t Hn; simpl in *;
    try reflexivity; try lia.
  - now destruct t.
  - rewrite IH by lia. reflexivity.
Qed.

Lemma excerpt_spec n s :
  (String.length s <= n -> excerpt n s = s)%nat
  /\ (n < String.length s ->
      excerpt n s = substring 0 n s ++ "..."
      /\ String.length (excerpt n s) = n + 3)%nat
  /\ (String.length (excerpt n s) <= n + 3)%nat.
Proof.
  unfold excerpt. destruct (Nat.ltb_spec n (String.length s)) as [Hlt | Hge].
  - assert (Hlen : String.length (substring 0 n s ++ "...") = (n + 3)%nat).
    { rewrite length_append, length_substring_0. simpl. lia. }
    split; [lia|]. split; [now split | lia].
  - split; [reflexivity|]. split; [lia | lia].
Qed.

(** X14: the texts of a returned record are excerpts.  The record is
    [make_result p s] for a catalog row [p]; its [ingredients] is the
    ingredients of that row when they have at most 300
    characters, and otherwise their first 300 characters followed by
    '...'; [sample_reviews] likewise with 200.  So the two fields never
    exceed 303 and 203 characters. *)
Theorem X14_excerpts_bounded `{Libraries} (st : State)
        (query : string) (skin_concerns : list string)
        (price_range : option (list R)) (brand_filter : option string)
        (top_n : Z) (results : list Recommendation) :
  get_product_recommendations st query skin_concerns price_range
                              brand_filter top_n = Ok results ->
  forall r, In r results ->
  exists i p s,
    candidate st query skin_concerns (i, p, s)
    /\ r = make_result p s
    /\ (String.length (r_ingredients r) <= 303)%nat
    /\ (String.length (r_sample_reviews r) <= 203)%nat
    /\ ((String.length (ingredients p) <= 300)%nat ->
        r_ingredients r = ingredients p)
    /\ ((300 < String.length (ingredients p))%nat ->
        r_ingredients r = substring 0 300 (ingredients p) ++ "...")
    /\ ((String.length (sample_reviews p) <= 200)%nat ->
        r_sample_reviews r = sample_reviews p)
    /\ ((200 < String.length (sample_reviews p))%nat ->
        r_sample_reviews r = substring 0 200 (sample_reviews p) ++ "...").
Proof.
  intros (ranked & -> & Hc & _)%search_ranked r Hr.
  apply in_map_iff in Hr as ([[i p] s] & <- & Hin).
  rewrite Forall_forall in Hc. exists i, p, s.
  split; [now apply Hc|]. split; [reflexivity|].
  unfold record_of, make_result. cbn [r_ingredients r_sample_reviews fst snd].
  destruct (excerpt_spec 300 (ingredients p)) as (I1 & I2 & I3).
  destruct (excerpt_spec 200 (sample_reviews p)) as (S1 & S2 & S3).
  repeat split; auto; try (intros Hlen; now apply I2 || now apply S2).
Qed.

(** X14 on the example search for "serum". *)
Lemma X14_excerpts_bounded_witness :
  exists i p s,
    candidate Example.loaded "serum" [] (i, p, s)
    /\ make_result Example.serum_row 1 = make_result p s
    /\ (String.length (r_ingredients (make_result Example.serum_row 1))
        <= 303)%nat
    /\ (String.length (r_sample_reviews (make_result Example.serum_row 1))
        <= 203)%nat
    /\ ((String.length (ingredients p) <= 300)%nat ->
        r_ingredients (make_result Example.serum_row 1) = ingredients p)
    /\ ((300 < String.length (ingredients p))%nat ->
        r_ingredients (make_result Example.serum_row 1)
        = substring 0 300 (ingredients p) ++ "...")
    /\ ((String.length (sample_reviews p) <= 200)%nat ->
        r_sample_reviews (make_result Example.serum_row 1)
        = sample_reviews p)
    /\ ((200 < String.length (sample_reviews p))%nat ->
        r_sample_reviews (make_result Example.serum_row 1)
        = substring 0 200 (sample_reviews p) ++ "...").
Proof.
  apply (X14_excerpts_bounded Example.loaded "serum" [] None None 12 _
           ExampleFacts.search_serum).
  now left.
Defined.

(* ================================================================== *)
(** * The reviews of a product *)

Lemma py_int_IZR (z : Z) : py_int (IZR z) = z.
Proof.
  unfold py_int. destruct (Rle_dec 0 (IZR z)); [apply ZfloorZ|].
  unfold Zceil. rewrite <- opp_IZR, ZfloorZ. lia.
Qed.

Lemma review_record_Ok row r :
  review_record row = Ok r ->
  (exists x, review_rating (row_review row) = Some x /\ rr_rating r = py_int x)
  /\ rr_review_text r
     = substring 0 500 (fillna (review_text (row_review row)) "nan")
  /\ (String.length (rr_review_text r) <= 500)%nat.
Proof.
  unfold review_record.
  destruct (review_rating (row_review row)) as [x|]; [|discriminate].
  intros [= <-]. cbn [rr_rating rr_review_text].
  split; [now exists x|]. split; [reflexivity|].
  rewrite length_substring_0. lia.
Qed.

Lemma mapM_Raise {A B : Type} (f : A -> result B) l e :
  mapM f l = Raise e -> exists a, In a l /\ f a = Raise e.
Proof.
  induction l as [|a r IH]; simpl; [discriminate|].
  unfold bind. destruct (f a) as [b|e'] eqn:Ef.
  - destruct (mapM f r) as [bs|e'']; [discriminate|].
    intros [= <-]. destruct (IH eq_refl) as (a' & Ha' & Hf).
    exists a'. split; [now right | exact Hf].
  - intros [= <-]. exists a. split; [now left | exact Ef].
Qed.

Lemma mapM_Ok_all {A B : Type} (f : A -> result B) l out :
  mapM f l = Ok out -> forall a, In a l -> exists b, f a = Ok b.
Proof.
  intros Hm%mapM_Ok. induction Hm as [|a b l l' Hab _ IH]; [intros ? []|].
  intros a' [<- | Ha']; [eauto | now apply IH].
Qed.

(** X15: the review list of a product holds, in file order, the records
    of a first stretch of the review rows of that product (its first
    [limit] rows when the limit is not negative): each record carries the
    rating of its row cut to an integer (a whole rating as it is) and the
    review text cut to 500 characters; with a limit that is not negative
    there are at most [limit] records. *)
Theorem X15_reviews_of_product (rows : list ReviewRow) (product_id : string)
        (limit : Z) (reviews : list ReviewRecord) :
  get_product_reviews (Some rows) product_id limit = Ok reviews ->
  Forall2
    (fun row r =>
       In row rows
       /\ review_product_id (row_review row) = Some product_id
       /\ (exists x, review_rating (row_review row) = Some x
                     /\ rr_rating r = py_int x)
       /\ (forall z, review_rating (row_review row) = Some (IZR z) ->
                     rr_rating r = z)
       /\ rr_review_text r
          = substring 0 500 (fillna (review_text (row_review row)) "nan")
       /\ (String.length (rr_review_text r) <= 500)%nat)
    (product_reviews rows product_id limit) reviews
  /\ (exists m,
         product_reviews rows product_id limit
         = firstn m (filter (fun row =>
                               match review_product_id (row_review row) with
                               | Some k => (k =? product_id)%string
                               | None => false
                               end) rows))
  /\ ((0 <= limit)%Z -> (List.length reviews <= Z.to_nat limit)%nat).
Proof.
  unfold get_product_reviews. intros Hm. apply mapM_Ok in Hm.
  unfold product_reviews in *.
  match goal with
  | _ : Forall2 _ (slice_to limit ?l) _ |- _ =>
      destruct (slice_to_firstn limit l) as (m & Hs & Hn); set (mine := l) in *
  end.
  rewrite Hs in *. split; [|split].
  - assert (Hsub : forall row, In row (firstn m mine) ->
                               In row rows
                               /\ review_product_id (row_review row)
                                  = Some product_id).
    { intros row Hrow%In_firstn. apply filter_In in Hrow as [Hrow Hk].
      split; [exact Hrow|].
      destruct (review_product_id (row_review row)) as [k|]; [|discriminate].
      apply String.eqb_eq in Hk. now subst. }
    clear Hs. revert Hm Hsub. generalize (firstn m mine). intros sel Hm.
    induction Hm as [|row r l l' Hr _ IH]; intros Hsub; constructor.
    + destruct (Hsub row (or_introl eq_refl)) as [Hin Hpid].
      destruct (review_record_Ok _ _ Hr) as ((x & Hx & Hrx) & Ht & Hl).
      split; [exact Hin|]. split; [exact Hpid|].
      split; [now exists x|]. split; [|now split].
      intros z Hz. rewrite Hz in Hx. injection Hx as <-.
      now rewrite Hrx, py_int_IZR.
    + apply IH. intros row' Hrow'. apply Hsub. now right.
  - now exists m.
  - intros Hl. rewrite <- (Forall2_length Hm), (Hn Hl).
    apply firstn_le_length.
Qed.

Lemma first_two_run :
  get_product_reviews (Some ExampleReviews.rows) "P1" 2
  = Ok ExampleReviews.first_two.
Proof. reflexivity. Qed.

(** X15 on the example rows: the first two reviews of "P1". *)
Lemma X15_reviews_of_product_witness :
  (List.length ExampleReviews.first_two <= Z.to_nat 2)%nat.
Proof.
  apply (X15_reviews_of_product ExampleReviews.rows "P1" 2
           ExampleReviews.first_two first_two_run).
  lia.
Defined.

(** X16: the review list fails exactly on a missing rating.  Once the
    reviews are loaded, the endpoint answers with the server error
    (status 500, ValueError) if and only if one of the selected rows of
    the product has no rating; otherwise it answers 200 with one record
    per selected row, and [total_reviews] is their number.  Before the
    reviews are loaded it answers 200 with no review. *)
Theorem X16_missing_rating_fails (rows : list ReviewRow)
        (product_id : string) (limit : option Z) :
  let selected := product_reviews rows product_id (fillna limit 5%Z) in
  ((exists row, In row selected /\ review_rating (row_review row) = None)
   <-> get_reviews_endpoint (Some rows) product_id limit
       = Reviews500 ValueError)
  /\ ((forall row, In row selected -> review_rating (row_review row) <> None)
      -> exists reviews,
        get_reviews_endpoint (Some rows) product_id limit
        = Reviews200 product_id (List.length selected) reviews
        /\ List.length reviews = List.length selected)
  /\ get_reviews_endpoint None product_id limit = Reviews200 product_id 0 [].
Proof.
  intros selected. unfold get_reviews_endpoint, get_product_reviews.
  fold selected. split; [|split; [|reflexivity]].
  - split.
    + intros (row & Hin & Hr).
      destruct (mapM review_record selected) as [rs|e] eqn:Em.
      * exfalso. destruct (mapM_Ok_all _ _ _ Em row Hin) as [b Hb].
        unfold review_record in Hb. now rewrite Hr in Hb.
      * apply mapM_Raise in Em as (a & _ & Ha).
        unfold review_record in Ha.
        destruct (review_rating (row_review a)); [discriminate|].
        now injection Ha as <-.
    + destruct (mapM review_record selected) as [rs|e] eqn:Em;
        [discriminate|].
      intros _. apply mapM_Raise in Em as (a & Hin & Ha).
      exists a. split; [exact Hin|].
      unfold review_record in Ha.
      now destruct (review_rating (row_review a)).
  - intros Hall.
    destruct (mapM_total review_record selected) as [rs Em].
    + intros a Ha. unfold review_record.
      destruct (review_rating (row_review a)) eqn:Er; [eauto|].
      now elim (Hall a Ha).
    + rewrite Em. exists rs.
      apply mapM_Ok, Forall2_length in Em. rewrite Em. now split.
Qed.

(** The review list on the example rows: the reviews of "P4" start with
    one without rating. *)
Lemma reviews_of_unrated_product :
  get_reviews_endpoint (Some ExampleReviews.rows) "P4" None
  = Reviews500 ValueError.
Proof. reflexivity. Qed.

(* ================================================================== *)
(** * Categories *)

Section StringOrder.

Lemma leb_iff (a b : string) :
  String.leb a b = true <-> a = b \/ String_as_OT.lt a b.
Proof.
  unfold String.leb.
  destruct (String.compare a b) eqn:Ec.
  - apply String_as_OT.cmp_eq in Ec. tauto.
  - apply String_as_OT.cmp_lt in Ec. tauto.
  - split; [discriminate|]. intros [-> | Hlt].
    + assert (String.compare b b = Eq) by now apply String_as_OT.cmp_eq.
      congruence.
    + apply String_as_OT.cmp_lt in Hlt. unfold String_as_OT.cmp in Hlt.
      congruence.
Qed.

Lemma ltb_iff (a b : string) :
  String.ltb a b = true <-> String_as_OT.lt a b.
Proof.
  unfold String.ltb. rewrite <- String_as_OT.cmp_lt.
  unfold String_as_OT.cmp. destruct (String.compare a b); split;
    congruence.
Qed.

Lemma leb_trans (a b c : string) :
  String.leb a b = true -> String.leb b c = true -> String.leb a c = true.
Proof.
  rewrite !leb_iff. intros [-> | Hab] [-> | Hbc]; auto.
  right. eapply String_as_OT.lt_trans; eassumption.
Qed.

Lemma insert_sorted_perm x l : Permutation (insert_sorted x l) (x :: l).
Proof.
  induction l as [|y r IH]; simpl; [reflexivity|].
  destruct (String.leb x y); [reflexivity|].
  rewrite IH. apply perm_swap.
Qed.

Lemma sorted_perm l : Permutation (sorted l) l.
Proof.
  induction l as [|x r IH]; simpl; [constructor|].
  rewrite insert_sorted_perm. now constructor.
Qed.

Lemma insert_sorted_sorted x l :
  StronglySorted (fun a b => String.leb a b = true) l ->
  StronglySorted (fun a b => String.leb a b = true) (insert_sorted x l).
Proof.
  induction l as [|y r IH]; intros Hs; simpl; [repeat constructor|].
  apply StronglySorted_inv in Hs as [Hr Hy].
  destruct (String.leb x y) eqn:Exy.
  - constructor; [now constructor|].
    constructor; [exact Exy|].
    rewrite Forall_forall in *. intros z Hz.
    exact (leb_trans _ _ _ Exy (Hy z Hz)).
  - constructor; [now apply IH|].
    apply (Forall_perm _ (x :: r)); [symmetry; apply insert_sorted_perm|].
    constructor; [|exact Hy].
    destruct (String.leb_total x y) as [E | E]; congruence.
Qed.

Lemma sorted_sorted l :
  StronglySorted (fun a b => String.leb a b = true) (sorted l).
Proof.
  induction l as [|x r IH]; simpl; [constructor|].
  now apply insert_sorted_sorted.
Qed.

Lemma unique_from_In l : forall seen x,
  In x (unique_from seen l) <-> In x l /\ ~ In x seen.
Proof.
  induction l as [|y r IH]; intros seen x; simpl; [tauto|].
  destruct (existsb (String.eqb y) seen) eqn:Ey.
  - apply existsb_exists in Ey as (z & Hz & Hyz).
    apply String.eqb_eq in Hyz. subst z.
    rewrite IH. split; [tauto|]. intros [[-> | Hx] Hn]; tauto.
  - assert (Hy : ~ In y seen).
    { intros Hin. apply Bool.not_true_iff_false in Ey. apply Ey.
      apply existsb_exists. exists y. split; [exact Hin|].
      apply String.eqb_refl. }
    simpl. rewrite IH. simpl.
    destruct (string_dec y x) as [-> | Hne]; [tauto|]. tauto.
Qed.

Lemma unique_from_NoDup l : forall seen, NoDup (unique_from seen l).
Proof.
  induction l as [|y r IH]; intros seen; simpl; [constructor|].
  destruct (existsb (String.eqb y) seen); [apply IH|].
  constructor; [|apply IH].
  rewrite unique_from_In. simpl. tauto.
Qed.

(** A sorted list without duplicates is strictly ascending. *)
Lemma sorted_strict l :
  NoDup l -> StronglySorted (fun a b => String.leb a b = true) l ->
  StronglySorted (fun a b => String.ltb a b = true) l.
Proof.
  induction 2 as [|a l Hl IH Ha]; constructor.
  - apply IH. now apply NoDup_cons_iff in H.
  - apply NoDup_cons_iff in H as [Hna _].
    rewrite Forall_forall in *. intros b Hb.
    apply ltb_iff. destruct (proj1 (leb_iff a b) (Ha b Hb)) as [-> | Hlt];
      [contradiction | exact Hlt].
Qed.

Lemma sorted_unique_spec l :
  StronglySorted (fun a b => String.ltb a b = true) (sorted (unique l))
  /\ forall x, In x (sorted (unique l)) <-> In x l.
Proof.
  split.
  - apply sorted_strict; [|apply sorted_sorted].
    apply (Permutation_NoDup (l := unique l));
      [symmetry; apply sorted_perm | apply unique_from_NoDup].
  - intros x. unfold unique. split; intros Hx.
    + apply (Permutation_in _ (sorted_perm _)) in Hx.
      now apply unique_from_In in Hx.
    + apply (Permutation_in _ (Permutation_sym (sorted_perm _))).
      apply unique_from_In. split; [exact Hx | intros []].
Qed.
End StringOrder.

(** X17: on a built catalog the category list gives the primary
    categories of the catalog and its non-empty secondary categories, each
    list in strictly ascending order (so without duplicates): a category is
    listed exactly when a product has it, and the empty secondary category
    is never listed. *)
Theorem X17_categories_sorted_and_complete `{Libraries} (st : State)
        (products : list Product) :
  products_df st = Some products ->
  exists primary secondary,
    get_categories st = Some (primary, secondary)
    /\ StronglySorted (fun a b => String.ltb a b = true) primary
    /\ StronglySorted (fun a b => String.ltb a b = true) secondary
    /\ (forall cat, In cat primary <->
                    exists p, In p products /\ primary_category p = cat)
    /\ (forall cat, In cat secondary <->
                    cat <> ""
                    /\ exists p, In p products /\ secondary_category p = cat).
Proof.
  intros Hdf. unfold get_categories. rewrite Hdf.
  eexists. eexists. split; [reflexivity|].
  destruct (sorted_unique_spec (map primary_category products)) as [P1 P2].
  split; [exact P1|]. split; [|split].
  - apply sorted_strict; [|apply sorted_sorted].
    eapply Permutation_NoDup; [symmetry; apply sorted_perm|].
    apply NoDup_filter, unique_from_NoDup.
  - intros cat. rewrite P2, in_map_iff. split; intros (p & A & B); eauto.
  - intros cat.
    assert (Hs : In cat (sorted (filter (fun c => negb (c =? "")%string)
                                        (unique (map secondary_category
                                                     products))))
                 <-> In cat (filter (fun c => negb (c =? "")%string)
                                    (unique (map secondary_category
                                                 products)))).
    { split; apply Permutation_in;
        [apply sorted_perm | symmetry; apply sorted_perm]. }
    rewrite Hs, filter_In. unfold unique. rewrite unique_from_In.
    rewrite in_map_iff, negb_true_iff, String.eqb_neq.
    split.
    + intros [[(p & A & B) _] Hne]. split; [exact Hne | eauto].
    + intros [Hne (p & A & B)]. split; [split; [eauto | tauto] | exact Hne].
Qed.

(** X17 on the example catalog. *)
Lemma X17_categories_sorted_and_complete_witness :
  exists primary secondary,
    get_categories Example.loaded = Some (primary, secondary)
    /\ StronglySorted (fun a b => String.ltb a b = true) primary
    /\ StronglySorted (fun a b => String.ltb a b = true) secondary.
Proof.
  destruct (X17_categories_sorted_and_complete Example.loaded Example.catalog
              eq_refl) as (primary & secondary & H1 & H2 & H3 & _).
  now exists primary, secondary.
Defined.

Lemma categories_of_example :
  get_categories Example.loaded = Some (["Skincare"], ["Moisturizers"]).
Proof. vm_compute. reflexivity. Qed.

(* ================================================================== *)
(** * The composite score is monotone *)

Lemma log1p_monotone (m n : Z) :
  (0 <= m <= n)%Z -> log1p (IZR m) <= log1p (IZR n).
Proof.
  intros [H0 Hmn]. unfold log1p.
  apply IZR_le in H0, Hmn.
  destruct (Req_dec (IZR m) (IZR n)) as [-> | Hne]; [lra|].
  apply Rlt_le, ln_increasing; lra.
Qed.

(** X18: a product that is at least as good on every signal never scores
    lower: with a similarity, a final rating, a review count (not
    negative) and a sentiment that are each at least as large, the
    composite score is at least as large. *)
Theorem X18_composite_monotone `{Libraries} (p q : Product) (s t : R) :
  s <= t ->
  final_rating p <= final_rating q ->
  (0 <= final_review_count p <= final_review_count q)%Z ->
  avg_sentiment p <= avg_sentiment q ->
  composite_score_of p s <= composite_score_of q t.
Proof.
  intros Hs Hr Hn Ha. unfold composite_score_of.
  pose proof (log1p_monotone _ _ Hn) as Hl.
  assert (Hmin : Rmin (log1p (IZR (final_review_count p)) / 10) 0.1
                 <= Rmin (log1p (IZR (final_review_count q)) / 10) 0.1)
    by (apply Rle_min_compat_r; lra).
  assert (Hmax : Rmax (avg_sentiment p) 0 <= Rmax (avg_sentiment q) 0)
    by (apply Rle_max_compat_r; exact Ha).
  lra.
Qed.

(** X18 on the cream (rated 4) and the serum (rated 5) of the example. *)
Lemma X18_composite_monotone_witness :
  composite_score_of Example.cream_row 1
  <= composite_score_of Example.serum_row 1.
Proof.
  apply (X18_composite_monotone Example.cream_row Example.serum_row 1 1).
  - lra.
  - run_reals. lra.
  - vm_compute. split; discriminate.
  - run_reals. lra.
Defined.

(** X16 on the example rows: the answer 500 for "P4" comes from a
    selected row without rating. *)
Lemma X16_missing_rating_fails_witness :
  exists row,
    In row (product_reviews ExampleReviews.rows "P4" (fillna None 5%Z))
    /\ review_rating (row_review row) = None.
Proof.
  apply (X16_missing_rating_fails ExampleReviews.rows "P4" None).
  reflexivity.
Defined.
